(** * nanodet/util/logger.py: running statistics, log sinks and the
      evaluation-table builder

    A shallow embedding of [src/nanodet/util/logger.py].

    - Python floats are modelled as exact rationals ([Q]); Python ints as [Z].
    - A Python [dict] is an insertion-ordered association list ([dict K V]),
      since the code iterates over dictionaries and the order of iteration
      decides the order of boxes and rows.
    - A raised exception is a value of [exn]; a method that mutates [self]
      and may raise returns the new object state together with its outcome,
      because attribute assignments made before a [raise] persist. *)

From Stdlib Require Import ZArith QArith Lia Ascii String.
From stdpp Require Import base tactics option list strings.

Local Open Scope Z_scope.

(** ** Exceptions and results *)

Inductive exn : Type :=
  | ZeroDivisionError
  | IndexError
  | KeyError
  | TypeError.

Inductive result (A : Type) : Type :=
  | Ok (a : A)
  | Raise (e : exn).
Arguments Ok {A} a.
Arguments Raise {A} e.

#[global] Instance result_ret : MRet result := fun _ a => Ok a.
#[global] Instance result_bind : MBind result := fun _ _ k m =>
  match m with
  | Ok a => k a
  | Raise e => Raise e
  end.

(** A [for] loop whose body may raise: the loop state is threaded from left
    to right and the first exception ends the loop. *)
Fixpoint for_each {A S : Type} (body : S -> A -> result S) (l : list A) (s : S)
  : result S :=
  match l with
  | [] => Ok s
  | a :: l' => s' ← body s a; for_each body l' s'
  end.

(** ** Python built-ins used by the module *)

(** [a / b] with a float [a] and an int [b]. *)
Definition truediv (a : Q) (b : Z) : result Q :=
  if b =? 0 then Raise ZeroDivisionError else Ok (a / inject_Z b)%Q.

(** [l[i]]: a negative index counts from the end; out of range raises. *)
Definition norm_index (len i : Z) : option nat :=
  if (0 <=? i) && (i <? len) then Some (Z.to_nat i)
  else if (- len <=? i) && (i <? 0) then Some (Z.to_nat (len + i))
  else None.

Definition getitem {A : Type} (l : list A) (i : Z) : result A :=
  match norm_index (Z.of_nat (length l)) i with
  | Some n => match l !! n with Some a => Ok a | None => Raise IndexError end
  | None => Raise IndexError
  end.

(** [l[i] = a]. *)
Definition setitem {A : Type} (l : list A) (i : Z) (a : A) : result (list A) :=
  match norm_index (Z.of_nat (length l)) i with
  | Some n => Ok (<[n := a]> l)
  | None => Raise IndexError
  end.

(** [l[:n]]. *)
Definition slice_to {A : Type} (l : list A) (n : Z) : list A :=
  if 0 <=? n then take (Z.to_nat n) l
  else take (Z.to_nat (Z.of_nat (length l) + n)) l.

(** Insertion-ordered dictionaries. *)
Definition dict (K V : Type) : Type := list (K * V).

Section Dict.
Context {K V : Type} `{EqDecision K}.

Fixpoint dict_get (d : dict K V) (k : K) : option V :=
  match d with
  | [] => None
  | (k', v) :: d' => if decide (k' = k) then Some v else dict_get d' k
  end.

(** [d[k] = v]: an existing key keeps its place. *)
Fixpoint dict_set (d : dict K V) (k : K) (v : V) : dict K V :=
  match d with
  | [] => [(k, v)]
  | (k', v') :: d' =>
      if decide (k' = k) then (k', v) :: d' else (k', v') :: dict_set d' k v
  end.

Definition dict_keys (d : dict K V) : list K := d.*1.

(** [k in d] *)
Definition dict_in (k : K) (d : dict K V) : bool :=
  match dict_get d k with Some _ => true | None => false end.

(** [d[k]] as an expression. *)
Definition dict_getitem (d : dict K V) (k : K) : result V :=
  match dict_get d k with
  | Some v => Ok v
  | None => Raise KeyError
  end.
End Dict.

(** [numpy.mean] of a sequence of floats. On an empty sequence numpy emits a
    [RuntimeWarning] and returns [nan]; it raises nothing. *)
Inductive npfloat : Type :=
  | NpVal (q : Q)
  | NpNaN.

Definition Qsum (l : list Q) : Q := foldr Qplus 0%Q l.

Definition np_mean (l : list Q) : npfloat :=
  match l with
  | [] => NpNaN
  | _ :: _ => NpVal (Qsum l / inject_Z (Z.of_nat (length l)))%Q
  end.

(** ** class MovingAverage *)

Module MovingAverage.

Record t : Type := mk { window_size : Z; queue : list Q }.

Definition reset (self : t) : t :=
  {| window_size := window_size self; queue := [] |}.

(** [self.queue.pop(0)] runs only right after an [append], on a non-empty
    list, so it cannot raise; it removes the head. *)
Definition push (self : t) (val : Q) : t :=
  let q := queue self ++ [val] in
  {| window_size := window_size self;
     queue := if Z.of_nat (length q) >? window_size self then drop 1 q else q |}.

(** [__init__(self, val, window_size=50)] *)
Definition init (val : Q) (window_size : Z) : t :=
  push (reset {| window_size := window_size; queue := [] |}) val.

Definition avg (self : t) : result npfloat := Ok (np_mean (queue self)).

(** Calls made on an object after its construction. *)
Inductive call : Type :=
  | Push (val : Q)
  | Reset.

Definition step (self : t) (c : call) : t :=
  match c with
  | Push v => push self v
  | Reset => reset self
  end.

Definition run (self : t) (cs : list call) : t := foldl step self cs.

(** The values pushed since the most recent [reset], oldest first, given
    those pushed before [cs]. *)
Fixpoint pushed (before : list Q) (cs : list call) : list Q :=
  match cs with
  | [] => before
  | Push v :: cs' => pushed (before ++ [v]) cs'
  | Reset :: cs' => pushed [] cs'
  end.

End MovingAverage.

(** ** class AverageMeter *)

Module AverageMeter.

Record t : Type := mk { val : Q; avg : Q; sum : Q; count : Z }.

Definition reset (self : t) : t :=
  {| val := 0; avg := 0; sum := 0; count := 0 |}.

(** [update(self, val, n=1)] *)
Definition update (self : t) (v : Q) (n : Z) : result t :=
  let sum' := (sum self + v * inject_Z n)%Q in
  let count' := count self + n in
  if count' >? 0 then
    a ← truediv sum' count';
    Ok {| val := v; avg := a; sum := sum'; count := count' |}
  else
    Ok {| val := v; avg := avg self; sum := sum'; count := count' |}.

(** [__init__(self, val)]; the fields do not exist before [reset]. *)
Definition init (v : Q) : result t :=
  update (reset {| val := 0; avg := 0; sum := 0; count := 0 |}) v 1.

Inductive call : Type :=
  | Update (v : Q) (n : Z)
  | Reset.

Definition step (self : t) (c : call) : result t :=
  match c with
  | Update v n => update self v n
  | Reset => Ok (reset self)
  end.

Definition run (self : t) (cs : list call) : result t := for_each step cs self.

(** The [(v, n)] of the updates since the most recent [reset]. *)
Fixpoint updates (before : list (Q * Z)) (cs : list call) : list (Q * Z) :=
  match cs with
  | [] => before
  | Update v n :: cs' => updates (before ++ [(v, n)]) cs'
  | Reset :: cs' => updates [] cs'
  end.

Definition weighted_sum (us : list (Q * Z)) : Q :=
  Qsum (map (fun u => (u.1 * inject_Z u.2)%Q) us).

Definition total_count (us : list (Q * Z)) : Z :=
  foldr Z.add 0 (map snd us).

End AverageMeter.


(** [os.path.join(a, b)] on a POSIX system. *)
Definition startswith_sep (s : string) : bool :=
  match s with
  | String c _ => Ascii.eqb c "/"%char
  | EmptyString => false
  end.

Fixpoint endswith_sep (s : string) : bool :=
  match s with
  | EmptyString => false
  | String c EmptyString => Ascii.eqb c "/"%char
  | String _ s' => endswith_sep s'
  end.

Definition path_join (a b : string) : string :=
  if startswith_sep b then b
  else if String.eqb a EmptyString || endswith_sep a then a +:+ b
  else a +:+ "/" +:+ b.

(** [enumerate(l)] *)
Definition enumerate {A : Type} (l : list A) : list (Z * A) :=
  imap (fun i a => (Z.of_nat i, a)) l.

(** ** What the module imports and does not define

    The dataset provider [nanodet.data.dataset.build_dataset], the
    configuration objects and the text renderings done by Python's string
    formatting are not part of this file; the embedding takes them as an
    interface. *)

(** One record yielded by the validation dataset: [data['img_info']]. *)
Record img_info : Type := { img_id : Z; file_name : string }.

Class Externals : Type := {
  (** [cfg.data.val] *)
  val_cfg : Type;
  img_path : val_cfg -> string;
  (** [build_dataset(cfg.data.val, mode)], as the list of records the
      dataset yields when iterated. *)
  build_dataset : val_cfg -> string -> list img_info;
  (** [f"{conf:.3f}"] *)
  format_3f : Q -> string;
  (** the [cfg_node] given to [dump_cfg] and its [dump] to a stream *)
  cfg_node : Type;
  cfg_dump : cfg_node -> string;
  (** [f"{params}"] and [f"{metrics}"] *)
  params : Type;
  params_str : params -> string;
  metrics_str : dict string Q -> string
}.

(** ** The decorator [rank_zero_only]

    [pytorch_lightning.utilities.rank_zero_only] runs the wrapped function
    only when the process attribute [rank_zero_only.rank] is 0 and returns
    [None] otherwise. *)
Definition rank_zero_only {S A : Type} (rank : Z) (fn : S -> S * result A)
  (self : S) : S * result (option A) :=
  if rank =? 0 then
    let '(self', r) := fn self in
    (self', match r with Ok a => Ok (Some a) | Raise e => Raise e end)
  else (self, Ok None).

(** ** class NanoDetLightningLogger *)

Module NanoDetLightningLogger.
Section WithExternals.
Context `{Externals}.

(** One point written by [SummaryWriter.add_scalars(tag, {phase: v}, step)]. *)
Record scalar : Type := { tag : string; phase : string; value : Q; at_step : Z }.

(** The sink together with what it has written: the lines handed to
    [self.logger] (each goes to [logs.txt] and to the console), the files
    opened for writing, and the scalar writer once it exists. *)
Record t : Type := mk {
  _name : string;
  _version : string;
  log_dir : string;
  _experiment : option (list scalar);
  logged : list string;
  files : dict string string
}.

Definition logger_info (self : t) (line : string) : t :=
  mk (_name self) (_version self) (log_dir self) (_experiment self)
     (logged self ++ [line]) (files self).

(** The property [experiment], read on rank 0: the writer is created on
    first access. *)
Definition experiment (self : t) : t * list scalar :=
  match _experiment self with
  | Some w => (self, w)
  | None =>
      (mk (_name self) (_version self) (log_dir self) (Some [])
          (logged self) (files self), [])
  end.

Definition add_scalars (self : t) (tg ph : string) (v : Q) (st : Z) : t :=
  let '(self1, w) := experiment self in
  mk (_name self1) (_version self1) (log_dir self1)
     (Some (w ++ [{| tag := tg; phase := ph; value := v; at_step := st |}]))
     (logged self1) (files self1).

Definition info_body (string : string) (self : t) : t * result unit :=
  (logger_info self string, Ok ()).

Definition log_body (string : string) (self : t) : t * result unit :=
  (logger_info self string, Ok ()).

Definition dump_cfg_body (node : cfg_node) (self : t) : t * result unit :=
  (mk (_name self) (_version self) (log_dir self) (_experiment self)
      (logged self)
      (dict_set (files self) (path_join (log_dir self) "train_cfg.yml")
                (cfg_dump node)),
   Ok ()).

Definition log_hyperparams_body (p : params) (self : t) : t * result unit :=
  (logger_info self ("hyperparams: " +:+ params_str p), Ok ()).

Definition log_metrics_body (metrics : dict string Q) (step : Z)
  (prefix : string) (self : t) : t * result unit :=
  let self1 := logger_info self (prefix +:+ ": " +:+ metrics_str metrics) in
  (foldl (fun s kv => add_scalars s (prefix +:+ kv.1) "Val" kv.2 step)
         self1 metrics,
   Ok ()).

Definition info (rank : Z) (self : t) (string : string) :=
  rank_zero_only rank (info_body string) self.

Definition log (rank : Z) (self : t) (string : string) :=
  rank_zero_only rank (log_body string) self.

Definition dump_cfg (rank : Z) (self : t) (node : cfg_node) :=
  rank_zero_only rank (dump_cfg_body node) self.

Definition log_hyperparams (rank : Z) (self : t) (p : params) :=
  rank_zero_only rank (log_hyperparams_body p) self.

Definition log_metrics (rank : Z) (self : t) (metrics : dict string Q)
  (step : Z) (prefix : string) :=
  rank_zero_only rank (log_metrics_body metrics step prefix) self.

End WithExternals.
End NanoDetLightningLogger.

(** ** class NanoDetWandbLogger *)

(** One detection [(x1, y1, x2, y2, conf)], unpacked as [*xyxy, conf]. *)
Record detection : Type := { x1 : Q; y1 : Q; x2 : Q; y2 : Q; conf : Q }.

(** [preds]: class id to detections. *)
Definition predictions : Type := dict Z (list detection).

Record position : Type := { minX : Q; minY : Q; maxX : Q; maxY : Q }.

Record box : Type := {
  box_position : position;
  class_id : Z;
  box_caption : string;
  class_score : Q;
  domain : string
}.

(** [wandb.Image(sample_path, boxes={"predictions": {...}}, classes=...)] *)
Record wandb_image : Type := {
  image_path : string;
  box_data : list box;
  class_labels : dict Z string;
  image_classes : list (Z * string)
}.

(** An entry of a row [[sample_id, wandb_img, *avg_conf_per_class]]. *)
Inductive cell : Type :=
  | CId (sample_id : Z)
  | CImage (img : wandb_image)
  | CNum (q : Q).

(** The locals of [_log_eval_sample] that its loops update. *)
Record sample_acc : Type := {
  acc_box_data : list box;
  avg_conf_per_class : list Q;
  pred_class_count : dict Z Z
}.

Module NanoDetWandbLogger.
Section WithExternals.
Context `{Externals}.

Record config : Type := { data_val : val_cfg; class_names : list string }.

(** Calls that leave the module. *)
Inductive event : Type :=
  | BuildDataset (v : val_cfg) (mode : string)
  | LogTable (key : string) (columns : list string) (data : list (list cell))
  | SuperLogMetrics (metrics : dict string Q) (step : Z).

Record t : Type := mk {
  _num_eval_samples : Z;
  _id_to_name : option (dict Z string);
  _prefix : option string;
  trace : list event
}.

(** [__init__(self, save_dir, num_eval_samples=16, **kwargs)] *)
Definition init (num_eval_samples : Z) : t :=
  mk num_eval_samples None None [].

Definition emit (self : t) (e : event) : t :=
  mk (_num_eval_samples self) (_id_to_name self) (_prefix self)
     (trace self ++ [e]).

(** The body of the inner loop, for one detection of class [cls]. *)
Definition visit (classes : list string) (cls : Z) (a : sample_acc)
  (d : detection) : result sample_acc :=
  if Qle_bool (1 # 4) (conf d) then
    name ← getitem classes cls;
    let b := {| box_position := {| minX := x1 d; minY := y1 d;
                                   maxX := x2 d; maxY := y2 d |};
                class_id := cls;
                box_caption := name +:+ " " +:+ format_3f (conf d);
                class_score := conf d;
                domain := "pixel" |} in
    old ← getitem (avg_conf_per_class a) cls;
    avg' ← setitem (avg_conf_per_class a) cls (old + conf d)%Q;
    count' ← (if dict_in cls (pred_class_count a) then
                n ← dict_getitem (pred_class_count a) cls;
                Ok (dict_set (pred_class_count a) cls (n + 1))
              else Ok (dict_set (pred_class_count a) cls 1));
    Ok {| acc_box_data := acc_box_data a ++ [b];
          avg_conf_per_class := avg';
          pred_class_count := count' |}
  else Ok a.

(** [for cls in preds: for *xyxy, conf in preds[cls]: ...] *)
Definition visit_class (classes : list string) (preds : predictions)
  (a : sample_acc) (cls : Z) : result sample_acc :=
  dets ← dict_getitem preds cls;
  for_each (visit classes cls) dets a.

(** The body of [for pred_class in pred_class_count.keys()]. *)
Definition average (counts : dict Z Z) (avg : list Q) (pred_class : Z)
  : result (list Q) :=
  s ← getitem avg pred_class;
  n ← dict_getitem counts pred_class;
  q ← truediv s n;
  setitem avg pred_class q.

Definition sample_loops (preds : predictions) (classes : list string)
  : result sample_acc :=
  a ← for_each (visit_class classes preds) (dict_keys preds)
        {| acc_box_data := [];
           avg_conf_per_class := replicate (length classes) 0%Q;
           pred_class_count := [] |};
  avg ← for_each (average (pred_class_count a))
          (dict_keys (pred_class_count a)) (avg_conf_per_class a);
  Ok {| acc_box_data := acc_box_data a;
        avg_conf_per_class := avg;
        pred_class_count := pred_class_count a |}.

Definition _log_eval_sample (sample_id : Z) (sample_path : string)
  (preds : predictions) (classes : list string) : result (list cell) :=
  let wandb_classes := enumerate classes in
  let class_id_to_label := enumerate classes in
  a ← sample_loops preds classes;
  let wandb_img := {| image_path := sample_path;
                      box_data := acc_box_data a;
                      class_labels := class_id_to_label;
                      image_classes := wandb_classes |} in
  Ok (CId sample_id :: CImage wandb_img :: map CNum (avg_conf_per_class a)).

(** [{data['img_info']['id']: data['img_info']['file_name'] for data in ds}] *)
Definition id_to_name_of (ds : list img_info) : dict Z string :=
  foldl (fun d data => dict_set d (img_id data) (file_name data)) [] ds.

(** The body of the loop over the selected sample ids. *)
Definition eval_row (self : t) (results : dict Z predictions) (cfg : config)
  (rows : list (list cell)) (res_id : Z) : result (list (list cell)) :=
  res ← dict_getitem results res_id;
  names ← match _id_to_name self with
           | Some d => Ok d
           | None => Raise TypeError
           end;
  name ← dict_getitem names res_id;
  let file_path := path_join (img_path (data_val cfg)) name in
  row ← _log_eval_sample res_id file_path res (class_names cfg);
  Ok (rows ++ [row]).

Definition max_len (self : t) (results : dict Z predictions) : Z :=
  Z.min (Z.of_nat (length (dict_keys results))) (_num_eval_samples self).

(** The sample ids the loop visits: [list(results.keys())[:max_len]]. *)
Definition selected (self : t) (results : dict Z predictions) : list Z :=
  slice_to (dict_keys results) (max_len self results).

(** [if max_len > 0 and self._id_to_name is None: ...] *)
Definition ensure_id_to_name (self : t) (results : dict Z predictions)
  (cfg : config) : t :=
  if (max_len self results >? 0)
     && (match _id_to_name self with None => true | Some _ => false end)
  then
    let val_dataset := build_dataset (data_val cfg) "test" in
    mk (_num_eval_samples self) (Some (id_to_name_of val_dataset))
       (_prefix self) (trace self ++ [BuildDataset (data_val cfg) "test"])
  else self.

Definition eval_table_rows (self : t) (results : dict Z predictions)
  (cfg : config) : result (list (list cell)) :=
  for_each (eval_row self results cfg) (selected self results) [].

Definition _log_eval_table_body (results : dict Z predictions) (cfg : config)
  (self : t) : t * result unit :=
  let self1 := ensure_id_to_name self results cfg in
  match eval_table_rows self1 results cfg with
  | Raise e => (self1, Raise e)
  | Ok [] => (self1, Ok ())
  | Ok (r :: rows) =>
      (emit self1 (LogTable "eval_samples"
                     ("id" :: "prediction" :: class_names cfg) (r :: rows)),
       Ok ())
  end.

Definition _log_eval_table (rank : Z) (self : t)
  (results : dict Z predictions) (cfg : config) :=
  rank_zero_only rank (_log_eval_table_body results cfg) self.

Definition info (rank : Z) (self : t) (string : string) :=
  rank_zero_only rank (fun s => (s, Ok ())) self.

Definition log_metrics_body (metrics : dict string Q) (step : Z)
  (prefix : string) (self : t) : t * result unit :=
  let self1 := mk (_num_eval_samples self) (_id_to_name self) (Some prefix)
                  (trace self) in
  (emit self1 (SuperLogMetrics metrics step), Ok ()).

Definition log_metrics (rank : Z) (self : t) (metrics : dict string Q)
  (step : Z) (prefix : string) :=
  rank_zero_only rank (log_metrics_body metrics step prefix) self.

(** The decorated [_log_eval_table] is called from inside the decorated
    [log_val_results]; its [None] or exception is what the body yields. *)
Definition log_val_results_body (results : dict Z predictions) (cfg : config)
  (self : t) : t * result unit :=
  let '(self', r) := _log_eval_table 0 self results cfg in
  (self', match r with Ok _ => Ok () | Raise e => Raise e end).

Definition log_val_results (rank : Z) (self : t)
  (results : dict Z predictions) (cfg : config) :=
  rank_zero_only rank (log_val_results_body results cfg) self.

Definition dump_cfg (rank : Z) (self : t) (node : cfg_node) :=
  rank_zero_only rank (fun s => (s, Ok ())) self.

(** Calls a training driver makes on the sink after constructing it. *)
Inductive call : Type :=
  | Info (string : string)
  | LogMetrics (metrics : dict string Q) (step : Z) (prefix : string)
  | LogValResults (results : dict Z predictions) (cfg : config)
  | DumpCfg (node : cfg_node)
  | LogEvalTable (results : dict Z predictions) (cfg : config).

(** One call: the sink afterwards, whether the call returned or raised. *)
Definition step (rank : Z) (self : t) (c : call) : t :=
  match c with
  | Info s => (info rank self s).1
  | LogMetrics m st p => (log_metrics rank self m st p).1
  | LogValResults r cfg => (log_val_results rank self r cfg).1
  | DumpCfg n => (dump_cfg rank self n).1
  | LogEvalTable r cfg => (_log_eval_table rank self r cfg).1
  end.

Definition run (rank : Z) (self : t) (cs : list call) : t :=
  foldl (step rank) self cs.

Definition is_build (e : event) : bool :=
  match e with BuildDataset _ _ => true | _ => false end.

Definition is_table (e : event) : bool :=
  match e with LogTable _ _ _ => true | _ => false end.

End WithExternals.
End NanoDetWandbLogger.

(** ** More of the module: calls on the structured sink *)

Module LightningCalls.
Section WithExternals.
Context `{Externals}.
Import NanoDetLightningLogger.

(** [log_val_results(self, results, cfg)]: the body is [pass]. *)
Definition log_val_results (rank : Z) (self : t) :=
  rank_zero_only rank (fun s : t => (s, Ok ())) self.

(** Calls a training driver makes on the sink after constructing it. *)
Inductive call : Type :=
  | Info (string : string)
  | Log (string : string)
  | DumpCfg (node : cfg_node)
  | LogHyperparams (p : params)
  | LogMetrics (metrics : dict string Q) (step : Z) (prefix : string)
  | LogValResults.

Definition step (rank : Z) (self : t) (c : call) : t :=
  match c with
  | Info s => (info rank self s).1
  | Log s => (log rank self s).1
  | DumpCfg n => (dump_cfg rank self n).1
  | LogHyperparams p => (log_hyperparams rank self p).1
  | LogMetrics m st p => (log_metrics rank self m st p).1
  | LogValResults => (log_val_results rank self).1
  end.

Definition run (rank : Z) (self : t) (cs : list call) : t :=
  foldl (step rank) self cs.

End WithExternals.
End LightningCalls.

(** ** class Logger

    The module-level state the class acts on is the trace of what it hands
    to [mkdir] (from [nanodet.util.path], not part of this file) and to the
    [logging] module. [tensorboard] says whether
    [torch.utils.tensorboard] can be imported. *)

Module Logger.

Inductive error : Type :=
  | ImportError
  | AttributeError.

Inductive outcome (A : Type) : Type :=
  | Returns (a : A)
  | Raises (e : error).
Arguments Returns {A} a.
Arguments Raises {A} e.

(** One point written by [writer.add_scalars(tag, {phase: value}, step)]. *)
Record point : Type := { tag : string; phase : string; value : Q; at_step : Z }.

Inductive effect : Type :=
  | Mkdir (local_rank : Z) (path : string)
  | BasicConfig (filename : string)
  | AddConsoleHandler
  | LoggingInfo (line : string).

(** The attributes of an object; [writer] is [None] while the attribute
    does not exist. *)
Record t : Type := mk { rank : Z; log_dir : string; writer : option (list point) }.

(** [__init__(self, local_rank, save_dir="./", use_tensorboard=True)] *)
Definition init (tensorboard : bool) (local_rank : Z) (save_dir : string)
  (use_tensorboard : bool) (w : list effect) : list effect * outcome t :=
  let w1 := w ++ [Mkdir local_rank save_dir;
                  BasicConfig (path_join save_dir "logs.txt");
                  AddConsoleHandler] in
  let dir := path_join save_dir "logs" in
  if use_tensorboard then
    if tensorboard then
      if local_rank <? 1 then
        (w1 ++ [LoggingInfo
                  ("Using Tensorboard, logs will be saved in " +:+ dir)],
         Returns (mk local_rank dir (Some [])))
      else (w1, Returns (mk local_rank dir None))
    else (w1, Raises ImportError)
  else (w1, Returns (mk local_rank dir None)).

Definition log (self : t) (string : string) (w : list effect) : list effect :=
  if rank self <? 1 then w ++ [LoggingInfo string] else w.

Definition scalar_summary (self : t) (tg ph : string) (v : Q) (st : Z)
  : t * outcome unit :=
  if rank self <? 1 then
    match writer self with
    | Some pts =>
        (mk (rank self) (log_dir self)
            (Some (pts ++ [{| tag := tg; phase := ph; value := v;
                              at_step := st |}])),
         Returns ())
    | None => (self, Raises AttributeError)
    end
  else (self, Returns ()).

(** Calls of [scalar_summary] one after the other, stopping at the first
    that raises. *)
Fixpoint scalar_summaries (self : t) (ps : list point) : t * outcome unit :=
  match ps with
  | [] => (self, Returns ())
  | p :: ps' =>
      match scalar_summary self (tag p) (phase p) (value p) (at_step p) with
      | (self', Returns _) => scalar_summaries self' ps'
      | (self', Raises e) => (self', Raises e)
      end
  end.

End Logger.


(** * Specification-side definitions

    What the statements below compare the code with. *)

(** The [W] most recent values of a history. *)
Definition retained (W : Z) (h : list Q) : list Q :=
  drop (length h - Z.to_nat W) h.

(** What holds of a meter whose updates since the last reset are [us]. *)
Definition tracks (self : AverageMeter.t) (us : list (Q * Z)) : Prop :=
  (AverageMeter.sum self == AverageMeter.weighted_sum us)%Q
  /\ AverageMeter.count self = AverageMeter.total_count us
  /\ (0 < AverageMeter.count self ->
      AverageMeter.avg self
      = (AverageMeter.sum self / inject_Z (AverageMeter.count self))%Q).

(** A dataset provider and text renderings on which the code can be run:
    the validation configuration carries its image root and the records its
    dataset yields. *)
Definition demo_externals : Externals :=
  {| val_cfg := string * list img_info;
     img_path := fst;
     build_dataset := fun v _ => v.2;
     format_3f := fun _ => "conf";
     cfg_node := string;
     cfg_dump := fun c => c;
     params := string;
     params_str := fun p => p;
     metrics_str := fun _ => "metrics" |}.

(** The detections of a prediction mapping, each with its class id, in the
    order in which the loops of [_log_eval_sample] meet them. *)
Definition detections_of (preds : predictions) : list (Z * detection) :=
  flat_map (fun kv => map (pair kv.1) kv.2) preds.

(** [conf >= 0.25] *)
Definition qualifies (d : detection) : bool := Qle_bool (1 # 4) (conf d).

Definition qualifying (ds : list (Z * detection)) : list (Z * detection) :=
  filter (fun cd => qualifies cd.2) ds.

(** The confidences of the qualifying detections of class [c]. *)
Definition class_confs (c : Z) (ds : list (Z * detection)) : list Q :=
  map (fun cd => conf cd.2) (filter (fun cd => cd.1 = c) (qualifying ds)).

(** Sum over count, and [0] where there is nothing to average. *)
Definition expected_avg (qs : list Q) : Q :=
  match qs with
  | [] => 0
  | _ :: _ => Qsum qs / inject_Z (Z.of_nat (length qs))
  end.

(** What identifies a box: its class, its corners and its score. *)
Definition box_summary (b : box) : Z * position * Q :=
  (class_id b, box_position b, class_score b).

Definition detection_summary (cd : Z * detection) : Z * position * Q :=
  (cd.1,
   {| minX := x1 cd.2; minY := y1 cd.2; maxX := x2 cd.2; maxY := y2 cd.2 |},
   conf cd.2).

(** Every class id of [preds] indexes [classes]. *)
Definition valid_classes (preds : predictions) (classes : list string) : Prop :=
  Forall (fun cls => 0 <= cls < Z.of_nat (length classes)) (dict_keys preds).

(** The loop state of [_log_eval_sample] after the detections [ds]. *)
Record sample_inv (classes : list string) (ds : list (Z * detection))
  (a : sample_acc) : Prop := {
  inv_boxes :
    map box_summary (acc_box_data a) = map detection_summary (qualifying ds);
  inv_len : length (avg_conf_per_class a) = length classes;
  inv_sum : forall c : nat,
    (c < length classes)%nat ->
    avg_conf_per_class a !! c
    = Some (foldl Qplus 0%Q (class_confs (Z.of_nat c) ds));
  inv_count : forall c : Z,
    dict_get (pred_class_count a) c
    = match class_confs c ds with
      | [] => None
      | _ :: _ => Some (Z.of_nat (length (class_confs c ds)))
      end;
  inv_keys : NoDup (dict_keys (pred_class_count a))
}.

(** The example of the specification: [{0: [(0,0,10,10,0.9)], 1: [(5,5,8,8,0.1)]}]. *)
Definition example_preds : predictions :=
  [(0, [{| x1 := 0; y1 := 0; x2 := 10; y2 := 10; conf := 9 # 10 |}]);
   (1, [{| x1 := 5; y1 := 5; x2 := 8; y2 := 8; conf := 1 # 10 |}])].

(** The sample id [k] has a file name in the cache [names]. *)
Definition resolves (names : option (dict Z string)) (k : Z) : Prop :=
  exists (d : dict Z string) (name : string),
    names = Some d /\ dict_get d k = Some name.

(** Every sample of [results] has distinct class ids, all of which index
    [classes]. *)
Definition valid_results (results : dict Z predictions)
  (classes : list string) : Prop :=
  Forall (fun kp => NoDup (dict_keys kp.2) /\ valid_classes kp.2 classes)
    results.

(** A row is the row of sample [k] with one average per class name. *)
Definition row_for (classes : list string) (row : list cell) (k : Z) : Prop :=
  head row = Some (CId k) /\ length row = (2 + length classes)%nat.

(** Twenty samples, all with the predictions of [example_preds], and a
    validation set that knows each of them. *)
Definition twenty_results : dict Z predictions :=
  map (fun i => (Z.of_nat i, example_preds)) (seq 0 20).

Definition twenty_images : list img_info :=
  map (fun i => {| img_id := Z.of_nat i; file_name := "img.jpg" |}) (seq 0 20).

(** One sample whose only detection has confidence 0.1. *)
Definition faint_results : dict Z predictions :=
  [(1, [(0, [{| x1 := 0; y1 := 0; x2 := 10; y2 := 10; conf := 1 # 10 |}])])].

(** The events a call added to the trace of the tracking sink. *)
Definition events_since `{Externals} (self self' : NanoDetWandbLogger.t)
  : list NanoDetWandbLogger.event :=
  drop (length (NanoDetWandbLogger.trace self)) (NanoDetWandbLogger.trace self').

(** A validation configuration for [demo_externals]: image root ["val"]. *)
Definition demo_cfg (images : list img_info) (classes : list string)
  : NanoDetWandbLogger.config (H := demo_externals) :=
  {| NanoDetWandbLogger.data_val := ("val", images) : @val_cfg demo_externals;
     NanoDetWandbLogger.class_names := classes |}.

(** How many times the trace of a sink shows the dataset provider called. *)
Definition builds `{Externals} (self : NanoDetWandbLogger.t) : nat :=
  length (filter NanoDetWandbLogger.is_build (NanoDetWandbLogger.trace self)).

(** The scalars a sink has recorded, none while it has no writer. *)
Definition scalars_of (w : option (list NanoDetLightningLogger.scalar))
  : list NanoDetLightningLogger.scalar :=
  match w with Some l => l | None => [] end.

(** The file name of the last record of a dataset with the id [k]. *)
Definition last_file_name (ds : list img_info) (k : Z) : option string :=
  file_name <$> last (filter (fun r => img_id r = k) ds).

(** [i] is an index Python accepts for a list of length [len]. *)
Definition in_range (len : nat) (i : Z) : Prop :=
  - Z.of_nat len <= i < Z.of_nat len.

(** The box [_log_eval_sample] draws for a detection of class [cd.1], when
    that class has the name [name]. *)
Definition box_of `{Externals} (name : string) (cd : Z * detection) : box :=
  {| box_position := {| minX := x1 cd.2; minY := y1 cd.2;
                        maxX := x2 cd.2; maxY := y2 cd.2 |};
     class_id := cd.1;
     box_caption := name +:+ " " +:+ format_3f (conf cd.2);
     class_score := conf cd.2;
     domain := "pixel" |}.

#[global] Instance in_range_dec (len : nat) (i : Z) : Decision (in_range len i).
Proof. unfold in_range. apply _. Defined.

(** What the first loop of [_log_eval_sample] keeps true of its locals: the
    averages list has one slot per class name, and every class counted has
    an index Python accepts and a count of at least one. *)
Definition counted (classes : list string) (a : sample_acc) : Prop :=
  length (avg_conf_per_class a) = length classes
  /\ forall (k n : Z),
       dict_get (pred_class_count a) k = Some n ->
       in_range (length classes) k /\ 1 <= n.




(** The row of sample [k] is what [_log_eval_sample] makes of its
    predictions and of its cached file name under the image root. *)
Definition row_of_sample `{Externals} (self : NanoDetWandbLogger.t)
  (results : dict Z predictions) (cfg : NanoDetWandbLogger.config)
  (row : list cell) (k : Z) : Prop :=
  exists (p : predictions) (d : dict Z string) (name : string),
    dict_get results k = Some p
    /\ NanoDetWandbLogger._id_to_name self = Some d
    /\ dict_get d k = Some name
    /\ NanoDetWandbLogger._log_eval_sample k
         (path_join (img_path (NanoDetWandbLogger.data_val cfg)) name) p
         (NanoDetWandbLogger.class_names cfg)
       = Ok row.

(** * Properties *)

(** ** Windowed statistic *)

Section MovingAverageFacts.
Import MovingAverage.

Lemma retained_length (W : Z) (h : list Q) :
  0 <= W ->
  Z.of_nat (length (retained W h)) = Z.min (Z.of_nat (length h)) W.
Proof.
  intros HW. unfold retained. rewrite length_drop. lia.
Qed.

Lemma push_retained (W : Z) (h : list Q) (v : Q) :
  1 <= W ->
  queue (push (mk W (retained W h)) v) = retained W (h ++ [v]).
Proof.
  intros HW. unfold push, retained; simpl.
  rewrite !length_app, length_drop; simpl.
  destruct (decide (length h < Z.to_nat W)%nat) as [Hlt|Hge].
  - replace (length h - Z.to_nat W)%nat with 0%nat by lia.
    replace (length h + 1 - Z.to_nat W)%nat with 0%nat by lia.
    rewrite !drop_0.
    destruct (Z.gtb_spec (Z.of_nat (length h - 0 + 1)) W); [lia | done].
  - destruct (Z.gtb_spec
                (Z.of_nat (length h - (length h - Z.to_nat W) + 1)) W);
      [| lia].
    rewrite <- drop_app_le by lia.
    rewrite drop_drop. f_equal. lia.
Qed.

Lemma run_retained (W : Z) (cs : list call) :
  1 <= W ->
  forall h : list Q,
    run (mk W (retained W h)) cs = mk W (retained W (pushed h cs)).
Proof.
  intros HW. induction cs as [|c cs IH]; intros h; [done|].
  destruct c as [v|]; simpl.
  - rewrite <- IH. unfold run; simpl. f_equal.
    pose proof (push_retained W h v HW) as Hq.
    unfold push in *; simpl in *. by rewrite Hq.
  - apply (IH []).
Qed.

Lemma init_retained (W : Z) (v0 : Q) :
  1 <= W -> init v0 W = mk W (retained W [v0]).
Proof.
  intros HW. unfold init, push, reset, retained; simpl.
  change (Z.of_nat 1) with 1.
  destruct (Z.gtb_spec 1 W); [lia|].
  replace (1 - Z.to_nat W)%nat with 0%nat by lia. done.
Qed.

End MovingAverageFacts.

(** C3. With a window size [W >= 1], after construction with a first value
    and any later calls of [push] and [reset], the queue holds exactly the
    most recent [min(k, W)] of the [k] values pushed since the last [reset]
    (construction counts as the first push), in the order pushed: its length
    is [min(k, W)], never above [W], and a push onto a full window drops the
    head of the queue, the oldest retained value. *)
Theorem moving_average_window (W : Z) (v0 : Q) (cs : list MovingAverage.call) :
  1 <= W ->
  Z.of_nat (length (MovingAverage.queue (MovingAverage.run (MovingAverage.init v0 W) cs)))
    = Z.min (Z.of_nat (length (MovingAverage.pushed [v0] cs))) W
  /\ Z.of_nat (length (MovingAverage.queue (MovingAverage.run (MovingAverage.init v0 W) cs))) <= W
  /\ MovingAverage.queue (MovingAverage.run (MovingAverage.init v0 W) cs)
     = drop (length (MovingAverage.pushed [v0] cs) - Z.to_nat W)
            (MovingAverage.pushed [v0] cs)
  /\ forall v : Q,
       MovingAverage.queue
         (MovingAverage.push (MovingAverage.run (MovingAverage.init v0 W) cs) v)
       = if Z.of_nat (length (MovingAverage.queue
                                (MovingAverage.run (MovingAverage.init v0 W) cs))) =? W
         then drop 1 (MovingAverage.queue
                        (MovingAverage.run (MovingAverage.init v0 W) cs)) ++ [v]
         else MovingAverage.queue
                (MovingAverage.run (MovingAverage.init v0 W) cs) ++ [v].
Proof.
  intros HW.
  rewrite (init_retained W v0 HW), (run_retained W cs HW [v0]); simpl.
  pose proof (retained_length W (MovingAverage.pushed [v0] cs) ltac:(lia)) as Hlen.
  repeat split; [done | lia | ].
  intros v. unfold MovingAverage.push; simpl. rewrite length_app; simpl.
  set (q := retained W (MovingAverage.pushed [v0] cs)) in *.
  destruct (Z.eqb_spec (Z.of_nat (length q)) W) as [Heq|Hne].
  - destruct (Z.gtb_spec (Z.of_nat (length q + 1)) W); [| lia].
    destruct q; [simpl in *; lia | done].
  - by destruct (Z.gtb_spec (Z.of_nat (length q + 1)) W); [lia |].
Qed.

Lemma moving_average_window_witness :
  MovingAverage.queue
    (MovingAverage.run (MovingAverage.init 1 2)
       [MovingAverage.Push 2; MovingAverage.Push 3; MovingAverage.Reset;
        MovingAverage.Push 4; MovingAverage.Push 5; MovingAverage.Push 6])
  = [5%Q; 6%Q]
  /\ Z.of_nat (length (MovingAverage.queue
       (MovingAverage.run (MovingAverage.init 1 2)
          [MovingAverage.Push 2; MovingAverage.Push 3; MovingAverage.Reset;
           MovingAverage.Push 4; MovingAverage.Push 5; MovingAverage.Push 6])))
     = Z.min 3 2.
Proof.
  split; [reflexivity|].
  apply (moving_average_window 2 1
           [MovingAverage.Push 2; MovingAverage.Push 3; MovingAverage.Reset;
            MovingAverage.Push 4; MovingAverage.Push 5; MovingAverage.Push 6]).
  lia.
Defined.

(** C7 (as the code has it). [avg()] hands the queue to [numpy.mean] and
    returns what it yields: on the empty window left by [reset()] that is
    [nan], and on no window does the call raise. *)
Theorem moving_average_avg_empty (self : MovingAverage.t) :
  MovingAverage.avg (MovingAverage.reset self) = Ok NpNaN
  /\ exists x : npfloat, MovingAverage.avg self = Ok x.
Proof.
  split; [reflexivity|]. by eexists.
Qed.

(** C7 fails as stated: after [reset()] with no later push, [avg()] returns
    a value ([nan]) and raises no error. *)
Lemma avg_of_empty_window_is_nan :
  MovingAverage.avg (MovingAverage.reset (MovingAverage.init 1 50)) = Ok NpNaN
  /\ (forall e : exn,
        MovingAverage.avg (MovingAverage.reset (MovingAverage.init 1 50))
        <> Raise e).
Proof.
  split; [reflexivity | discriminate].
Qed.

(** ** Cumulative statistic *)

Section AverageMeterFacts.
Import AverageMeter.

Lemma update_ok (self : t) (v : Q) (n : Z) :
  update self v n
  = Ok {| val := v;
          avg := if count self + n >? 0
                 then ((sum self + v * inject_Z n) / inject_Z (count self + n))%Q
                 else avg self;
          sum := (sum self + v * inject_Z n)%Q;
          count := count self + n |}.
Proof.
  unfold update, truediv.
  destruct (Z.gtb_spec (count self + n) 0) as [Hpos|Hle]; [|done].
  by destruct (Z.eqb_spec (count self + n) 0); [lia|].
Qed.

Lemma Qsum_snoc (l : list Q) (x : Q) : (Qsum (l ++ [x]) == Qsum l + x)%Q.
Proof.
  induction l as [|y l IH]; simpl.
  - ring.
  - unfold Qsum in *; simpl. rewrite IH. ring.
Qed.

Lemma weighted_sum_snoc (us : list (Q * Z)) (v : Q) (n : Z) :
  (weighted_sum (us ++ [(v, n)]) == weighted_sum us + v * inject_Z n)%Q.
Proof.
  unfold weighted_sum. rewrite map_app. apply Qsum_snoc.
Qed.

Lemma total_count_snoc (us : list (Q * Z)) (v : Q) (n : Z) :
  total_count (us ++ [(v, n)]) = total_count us + n.
Proof.
  unfold total_count. induction us as [|u us IH]; simpl in *; lia.
Qed.

Lemma tracks_reset (self : t) : tracks (reset self) [].
Proof.
  repeat split; simpl; try reflexivity; lia.
Qed.

Lemma tracks_update (self : t) (us : list (Q * Z)) (v : Q) (n : Z) :
  tracks self us ->
  exists self', update self v n = Ok self' /\ tracks self' (us ++ [(v, n)]).
Proof.
  intros (Hsum & Hcount & _). rewrite update_ok. eexists; split; [done|].
  repeat split; simpl.
  - rewrite weighted_sum_snoc, Hsum. reflexivity.
  - rewrite total_count_snoc. lia.
  - intros Hpos. by destruct (Z.gtb_spec (count self + n) 0); [|lia].
Qed.

Lemma run_cons (self : t) (c : call) (cs : list call) :
  run self (c :: cs)
  = match step self c with Ok self' => run self' cs | Raise e => Raise e end.
Proof. reflexivity. Qed.

Lemma tracks_run (cs : list call) :
  forall (self : t) (us : list (Q * Z)),
    tracks self us ->
    exists self', run self cs = Ok self' /\ tracks self' (updates us cs).
Proof.
  induction cs as [|c cs IH]; intros self us Htr.
  - by exists self.
  - rewrite run_cons. destruct c as [v n|]; simpl.
    + destruct (tracks_update self us v n Htr) as (s1 & -> & Htr1).
      by apply IH.
    + apply IH, tracks_reset.
Qed.

End AverageMeterFacts.

(** C4. A meter constructed with [v0] and then driven by any calls of
    [update] and [reset] is always defined, and its fields satisfy: [sum] is
    the total of [v * n] and [count] the total of [n] over the updates since
    the last reset (the constructor's [update(v0, 1)] included), and whenever
    [count > 0] the field [avg] is [sum / count], the weighted mean of those
    updates. *)
Theorem average_meter_invariant (v0 : Q) (cs : list AverageMeter.call) :
  exists self0 self : AverageMeter.t,
    AverageMeter.init v0 = Ok self0
    /\ AverageMeter.run self0 cs = Ok self
    /\ (AverageMeter.sum self
        == AverageMeter.weighted_sum (AverageMeter.updates [(v0, 1%Z)] cs))%Q
    /\ AverageMeter.count self
       = AverageMeter.total_count (AverageMeter.updates [(v0, 1%Z)] cs)
    /\ (0 < AverageMeter.count self ->
        AverageMeter.avg self
        = (AverageMeter.sum self / inject_Z (AverageMeter.count self))%Q
        /\ (AverageMeter.avg self
            == AverageMeter.weighted_sum (AverageMeter.updates [(v0, 1%Z)] cs)
               / inject_Z (AverageMeter.total_count
                             (AverageMeter.updates [(v0, 1%Z)] cs)))%Q).
Proof.
  destruct (tracks_update (AverageMeter.reset (AverageMeter.mk 0 0 0 0)) []
              v0 1 (tracks_reset _)) as (self0 & Hinit & Htr0).
  destruct (tracks_run cs self0 _ Htr0) as (self & Hrun & Hsum & Hcount & Havg).
  exists self0, self. repeat split; try done.
  - by apply Havg.
  - rewrite (Havg H), Hsum, Hcount. reflexivity.
Qed.

Lemma average_meter_invariant_witness :
  exists self0 self : AverageMeter.t,
    AverageMeter.init 2 = Ok self0
    /\ AverageMeter.run self0 [AverageMeter.Update 4 3; AverageMeter.Reset;
                               AverageMeter.Update 6 2; AverageMeter.Update 3 1]
       = Ok self
    /\ (AverageMeter.sum self == 15)%Q
    /\ AverageMeter.count self = 3
    /\ (AverageMeter.avg self == 5)%Q.
Proof.
  destruct (average_meter_invariant 2
              [AverageMeter.Update 4 3; AverageMeter.Reset;
               AverageMeter.Update 6 2; AverageMeter.Update 3 1])
    as (self0 & self & H0 & Hrun & Hsum & Hcount & Havg).
  exists self0, self.
  assert (Hc : AverageMeter.count self = 3) by (rewrite Hcount; reflexivity).
  repeat split; try done.
  destruct Havg as [_ Hq]; [lia|]. rewrite Hq. reflexivity.
Defined.

(** C8. [update(v, n)] never raises: it divides only when the new [count] is
    positive. It always assigns [val], [sum] and [count]; [avg] becomes
    [sum / count] when the new [count] is positive and keeps its value
    otherwise, as for [update(v, 0)] right after [reset()]. *)
Theorem average_meter_update_total (self : AverageMeter.t) (v : Q) (n : Z) :
  (exists self' : AverageMeter.t,
     AverageMeter.update self v n = Ok self'
     /\ AverageMeter.val self' = v
     /\ AverageMeter.sum self' = (AverageMeter.sum self + v * inject_Z n)%Q
     /\ AverageMeter.count self' = AverageMeter.count self + n
     /\ (0 < AverageMeter.count self' ->
         AverageMeter.avg self'
         = (AverageMeter.sum self' / inject_Z (AverageMeter.count self'))%Q)
     /\ (AverageMeter.count self' <= 0 ->
         AverageMeter.avg self' = AverageMeter.avg self))
  /\ AverageMeter.update (AverageMeter.reset self) v 0
     = Ok (AverageMeter.mk v 0 (0 + v * 0) 0).
Proof.
  split; [| by rewrite update_ok].
  rewrite update_ok. eexists; split; [done|]. simpl.
  do 3 (split; [done|]).
  split; intros Hc;
    destruct (Z.gtb_spec (AverageMeter.count self + n) 0); (done || lia).
Qed.

Lemma average_meter_update_total_witness :
  AverageMeter.update (AverageMeter.reset (AverageMeter.mk 3 3 9 3)) 5 0
  = Ok (AverageMeter.mk 5 0 (0 + 5 * 0) 0)
  /\ exists self' : AverageMeter.t,
       AverageMeter.update (AverageMeter.mk 3 3 9 3) 5 1 = Ok self'
       /\ AverageMeter.count self' = 4
       /\ AverageMeter.avg self' = ((9 + 5 * 1) / 4)%Q.
Proof.
  split.
  - apply (average_meter_update_total (AverageMeter.mk 3 3 9 3) 5 0).
  - destruct (average_meter_update_total (AverageMeter.mk 3 3 9 3) 5 1)
      as [(self' & Hup & _ & Hsum & Hcount & Havg & _) _].
    exists self'. split; [done|]. split; [done|].
    rewrite Havg by (rewrite Hcount; simpl; lia).
    by rewrite Hsum, Hcount.
Defined.

(** ** Rank gating *)

Lemma rank_zero_only_skip {S A : Type} (rank : Z) (fn : S -> S * result A)
  (self : S) :
  rank <> 0 -> rank_zero_only rank fn self = (self, Ok None).
Proof.
  intros Hr. unfold rank_zero_only. by destruct (Z.eqb_spec rank 0).
Qed.

(** C2. On a process whose [rank_zero_only.rank] is not 0, each of [log],
    [log_metrics], [dump_cfg] and [log_hyperparams] of the structured sink,
    and each of [log_metrics] and [dump_cfg] that the tracking sink defines,
    returns [None] and leaves the sink as it was: no line logged, no file
    written, no scalar recorded, no call made to the tracking client. *)
Theorem non_coordinator_noop (E : Externals) (rank : Z) :
  rank <> 0 ->
  (forall (self : NanoDetLightningLogger.t) (s : string),
     NanoDetLightningLogger.log rank self s = (self, Ok None))
  /\ (forall (self : NanoDetLightningLogger.t) (m : dict string Q) (st : Z)
             (p : string),
        NanoDetLightningLogger.log_metrics rank self m st p = (self, Ok None))
  /\ (forall (self : NanoDetLightningLogger.t) (c : cfg_node),
        NanoDetLightningLogger.dump_cfg rank self c = (self, Ok None))
  /\ (forall (self : NanoDetLightningLogger.t) (p : params),
        NanoDetLightningLogger.log_hyperparams rank self p = (self, Ok None))
  /\ (forall (self : NanoDetWandbLogger.t) (m : dict string Q) (st : Z)
             (p : string),
        NanoDetWandbLogger.log_metrics rank self m st p = (self, Ok None))
  /\ (forall (self : NanoDetWandbLogger.t) (c : cfg_node),
        NanoDetWandbLogger.dump_cfg rank self c = (self, Ok None)).
Proof.
  intros Hr.
  repeat split; intros;
    unfold NanoDetLightningLogger.log, NanoDetLightningLogger.log_metrics,
      NanoDetLightningLogger.dump_cfg, NanoDetLightningLogger.log_hyperparams,
      NanoDetWandbLogger.log_metrics, NanoDetWandbLogger.dump_cfg;
    by apply rank_zero_only_skip.
Qed.

(** On rank 1 a metrics call changes nothing, while the same call on rank 0
    logs a line and records a scalar. *)
Lemma non_coordinator_noop_witness :
  NanoDetLightningLogger.log_metrics (H := demo_externals) 1
    (NanoDetLightningLogger.mk "NanoDet" "v" "logs-v" None [] [])
    [("mAP", 1 # 2)] 3 "Val_metrics/"
  = (NanoDetLightningLogger.mk "NanoDet" "v" "logs-v" None [] [], Ok None)
  /\ NanoDetLightningLogger.log_metrics (H := demo_externals) 0
       (NanoDetLightningLogger.mk "NanoDet" "v" "logs-v" None [] [])
       [("mAP", 1 # 2)] 3 "Val_metrics/"
     = (NanoDetLightningLogger.mk "NanoDet" "v" "logs-v"
          (Some [NanoDetLightningLogger.Build_scalar
                   "Val_metrics/mAP" "Val" (1 # 2) 3])
          ["Val_metrics/: metrics"] [],
        Ok (Some ())).
Proof.
  split; [| reflexivity].
  apply (non_coordinator_noop demo_externals 1). lia.
Defined.

(** ** Lists, dictionaries and loops *)

Lemma norm_index_valid (len i : Z) :
  0 <= i < len -> norm_index len i = Some (Z.to_nat i).
Proof.
  intros Hi. unfold norm_index.
  destruct (Z.leb_spec 0 i); [|lia]. by destruct (Z.ltb_spec i len); [|lia].
Qed.

Lemma getitem_valid {A : Type} (l : list A) (i : Z) (a : A) :
  0 <= i -> l !! Z.to_nat i = Some a -> getitem l i = Ok a.
Proof.
  intros Hi Hl. unfold getitem.
  rewrite norm_index_valid, Hl; [done|].
  apply lookup_lt_Some in Hl. lia.
Qed.

Lemma setitem_valid {A : Type} (l : list A) (i : Z) (a : A) :
  0 <= i < Z.of_nat (length l) -> setitem l i a = Ok (<[Z.to_nat i := a]> l).
Proof.
  intros Hi. unfold setitem. by rewrite norm_index_valid.
Qed.

Lemma setitem_length {A : Type} (l l' : list A) (i : Z) (a : A) :
  setitem l i a = Ok l' -> length l' = length l.
Proof.
  unfold setitem. destruct (norm_index _ _); [|done].
  intros [= <-]. apply length_insert.
Qed.

Lemma for_each_app {A S : Type} (body : S -> A -> result S) (l k : list A)
  (s : S) :
  for_each body (l ++ k) s
  = match for_each body l s with
    | Ok s' => for_each body k s'
    | Raise e => Raise e
    end.
Proof.
  revert s. induction l as [|a l IH]; intros s; simpl; [done|].
  destruct (body s a); simpl; [apply IH | done].
Qed.

Lemma for_each_fmap {A B S : Type} (body : S -> B -> result S) (f : A -> B)
  (l : list A) (s : S) :
  for_each body (map f l) s = for_each (fun s a => body s (f a)) l s.
Proof.
  revert s. induction l as [|a l IH]; intros s; simpl; [done|].
  destruct (body s (f a)); simpl; [apply IH | done].
Qed.

Lemma for_each_cons {A S : Type} (body : S -> A -> result S) (a : A)
  (l : list A) (s : S) :
  for_each body (a :: l) s
  = match body s a with
    | Ok s' => for_each body l s'
    | Raise e => Raise e
    end.
Proof. reflexivity. Qed.

(** A property kept by every iteration that returns holds when the loop
    returns. *)
Lemma for_each_preserves {A S : Type} (P : S -> Prop)
  (body : S -> A -> result S) (l : list A) :
  (forall s a s', P s -> body s a = Ok s' -> P s') ->
  forall s s', P s -> for_each body l s = Ok s' -> P s'.
Proof.
  intros Hbody. induction l as [|a l IH]; intros s s' Hs; simpl.
  - by intros [= <-].
  - destruct (body s a) as [s1|] eqn:Hb; simpl; [|done].
    apply IH. by eapply Hbody.
Qed.

Section DictFacts.
Context {K V : Type} `{EqDecision K}.
Implicit Types (d : dict K V) (k : K) (v : V).

Lemma dict_get_set_eq d k v : dict_get (dict_set d k v) k = Some v.
Proof.
  induction d as [|[k' v'] d IH]; simpl.
  - by rewrite decide_True.
  - destruct (decide (k' = k)) as [->|Hne]; simpl.
    + by rewrite decide_True.
    + by rewrite decide_False.
Qed.

Lemma dict_get_set_ne d k k' v :
  k <> k' -> dict_get (dict_set d k v) k' = dict_get d k'.
Proof.
  intros Hne. induction d as [|[k1 v1] d IH]; simpl.
  - by rewrite decide_False.
  - destruct (decide (k1 = k)) as [->|Hne1]; simpl.
    + by rewrite !decide_False.
    + by rewrite IH.
Qed.

Lemma dict_get_None d k : dict_get d k = None <-> k ∉ dict_keys d.
Proof.
  unfold dict_keys. induction d as [|[k' v'] d IH]; simpl.
  - split; [intros _; apply not_elem_of_nil | done].
  - rewrite not_elem_of_cons. destruct (decide (k' = k)) as [->|Hne].
    + split; [done | by intros [? _]].
    + rewrite IH. split; [by intros ?; split | by intros [_ ?]].
Qed.

Lemma dict_get_is_Some d k : is_Some (dict_get d k) <-> k ∈ dict_keys d.
Proof.
  destruct (dict_get d k) eqn:Hg.
  - split; [intros _ | by eauto].
    destruct (decide (k ∈ dict_keys d)) as [|Hn]; [done|].
    apply dict_get_None in Hn. congruence.
  - apply dict_get_None in Hg. split; [intros [? ?]; done | done].
Qed.

Lemma dict_keys_set d k v :
  dict_keys (dict_set d k v)
  = if dict_in k d then dict_keys d else dict_keys d ++ [k].
Proof.
  unfold dict_keys, dict_in. induction d as [|[k' v'] d IH]; csimpl; [done|].
  destruct (decide (k' = k)) as [->|Hne]; csimpl; [done|].
  rewrite IH. by destruct (dict_get d k).
Qed.

Lemma dict_set_NoDup d k v :
  NoDup (dict_keys d) -> NoDup (dict_keys (dict_set d k v)).
Proof.
  intros Hnd. rewrite dict_keys_set. unfold dict_in.
  destruct (dict_get d k) eqn:Hg; [done|].
  apply NoDup_app. split_and!; [done | | apply NoDup_singleton].
  intros x Hx ->%list_elem_of_singleton. by apply dict_get_None in Hg.
Qed.

Lemma dict_get_NoDup d k v :
  NoDup (dict_keys d) -> (k, v) ∈ d -> dict_get d k = Some v.
Proof.
  unfold dict_keys. induction d as [|[k' v'] d IH]; simpl.
  - by intros _ ?%elem_of_nil.
  - intros [Hk Hnd]%NoDup_cons [[= -> ->]|Hin]%elem_of_cons.
    + by rewrite decide_True.
    + rewrite decide_False; [by apply IH|].
      intros ->. apply Hk. apply list_elem_of_fmap. by exists (k, v).
Qed.

End DictFacts.

(** ** The row of one sample *)

Section SampleFacts.
Context `{Externals}.
Import NanoDetWandbLogger.

Lemma visit_class_eq (classes : list string) (preds : predictions)
  (a : sample_acc) (cls : Z) (dets : list detection) :
  dict_get preds cls = Some dets ->
  visit_class classes preds a cls = for_each (visit classes cls) dets a.
Proof.
  intros Hg. unfold visit_class, dict_getitem. by rewrite Hg.
Qed.

(** With distinct keys, looking each key up again gives the entry being
    visited: the nested loops run over [detections_of preds]. *)
Lemma visit_class_flat (classes : list string) (preds : predictions)
  (a : sample_acc) :
  NoDup (dict_keys preds) ->
  for_each (visit_class classes preds) (dict_keys preds) a
  = for_each (fun a cd => visit classes cd.1 a cd.2) (detections_of preds) a.
Proof.
  intros Hnd.
  assert (Hsuf : forall l : predictions,
             (forall k v, (k, v) ∈ l -> dict_get preds k = Some v) ->
             forall a,
               for_each (visit_class classes preds) (dict_keys l) a
               = for_each (fun a cd => visit classes cd.1 a cd.2)
                   (detections_of l) a).
  { induction l as [|[k v] l IH]; intros Hl a0; [done|].
    change (dict_keys ((k, v) :: l)) with (k :: dict_keys l).
    change (detections_of ((k, v) :: l))
      with (map (pair k) v ++ detections_of l).
    rewrite for_each_cons, for_each_app, for_each_fmap.
    rewrite (visit_class_eq classes preds a0 k v)
      by apply Hl, list_elem_of_here.
    match goal with
    | |- match ?x with _ => _ end = match ?y with _ => _ end =>
        change y with x; destruct x; [|done]
    end.
    apply IH. intros k' v' Hin. apply Hl. by apply list_elem_of_further. }
  apply Hsuf. intros k v Hin. by apply dict_get_NoDup.
Qed.

Lemma visit_valid (classes : list string) (cls : Z) (a : sample_acc)
  (d : detection) (name : string) (old : Q) :
  0 <= cls ->
  classes !! Z.to_nat cls = Some name ->
  avg_conf_per_class a !! Z.to_nat cls = Some old ->
  visit classes cls a d
  = if qualifies d then
      Ok {| acc_box_data :=
              acc_box_data a
              ++ [{| box_position := {| minX := x1 d; minY := y1 d;
                                        maxX := x2 d; maxY := y2 d |};
                     class_id := cls;
                     box_caption := name +:+ " " +:+ format_3f (conf d);
                     class_score := conf d;
                     domain := "pixel" |}];
            avg_conf_per_class :=
              <[Z.to_nat cls := (old + conf d)%Q]> (avg_conf_per_class a);
            pred_class_count :=
              dict_set (pred_class_count a) cls
                match dict_get (pred_class_count a) cls with
                | Some n => n + 1
                | None => 1
                end |}
    else Ok a.
Proof.
  intros Hc Hname Hold. unfold visit, qualifies.
  destruct (Qle_bool (1 # 4) (conf d)); [|done].
  rewrite (getitem_valid _ _ _ Hc Hname); simpl.
  rewrite (getitem_valid _ _ _ Hc Hold); simpl.
  rewrite setitem_valid by (apply lookup_lt_Some in Hold; lia); simpl.
  unfold dict_in, dict_getitem.
  by destruct (dict_get (pred_class_count a) cls).
Qed.

Lemma qualifying_snoc (ds : list (Z * detection)) (cls : Z) (d : detection) :
  qualifying (ds ++ [(cls, d)])
  = qualifying ds ++ (if qualifies d then [(cls, d)] else []).
Proof.
  unfold qualifying. rewrite filter_app. f_equal.
  rewrite filter_cons, filter_nil; simpl.
  destruct (qualifies d); case_decide; naive_solver.
Qed.

Lemma class_confs_snoc (c : Z) (ds : list (Z * detection)) (cls : Z)
  (d : detection) :
  class_confs c (ds ++ [(cls, d)])
  = class_confs c ds
    ++ (if qualifies d then if decide (cls = c) then [conf d] else [] else []).
Proof.
  unfold class_confs. rewrite qualifying_snoc, filter_app, map_app. f_equal.
  destruct (qualifies d); [|done].
  rewrite filter_cons, filter_nil; simpl. by repeat case_decide.
Qed.

Lemma sample_inv_init (classes : list string) :
  sample_inv classes []
    {| acc_box_data := [];
       avg_conf_per_class := replicate (length classes) 0%Q;
       pred_class_count := [] |}.
Proof.
  split; simpl; [done | apply length_replicate | | done | apply NoDup_nil_2].
  intros c Hc. by apply lookup_replicate_2.
Qed.

Lemma sample_inv_visit (classes : list string) (ds : list (Z * detection))
  (a : sample_acc) (cls : Z) (d : detection) :
  sample_inv classes ds a ->
  0 <= cls < Z.of_nat (length classes) ->
  exists a', visit classes cls a d = Ok a'
             /\ sample_inv classes (ds ++ [(cls, d)]) a'.
Proof.
  intros [Hb Hl Hs Hc Hk] Hcls.
  destruct (lookup_lt_is_Some_2 classes (Z.to_nat cls)) as [name Hname];
    [lia|].
  pose proof (Hs (Z.to_nat cls) ltac:(lia)) as Hold.
  rewrite Z2Nat.id in Hold by lia.
  rewrite (visit_valid _ _ _ _ name _ (proj1 Hcls) Hname Hold).
  destruct (qualifies d) eqn:Hq.
  - eexists; split; [done|]. split; simpl.
    + by rewrite qualifying_snoc, Hq, !map_app, Hb.
    + by rewrite length_insert.
    + intros c Hlt. rewrite class_confs_snoc, Hq.
      destruct (decide (cls = Z.of_nat c)) as [->|Hne].
      * rewrite Nat2Z.id, list_lookup_insert_eq by lia.
        by rewrite foldl_app.
      * rewrite list_lookup_insert_ne by lia. rewrite app_nil_r. by apply Hs.
    + intros c. rewrite class_confs_snoc, Hq.
      destruct (decide (cls = c)) as [->|Hne].
      * rewrite dict_get_set_eq, Hc.
        destruct (class_confs c ds); simpl; [done|].
        rewrite length_app; simpl. do 2 f_equal. lia.
      * rewrite dict_get_set_ne by done. rewrite app_nil_r. apply Hc.
    + by apply dict_set_NoDup.
  - exists a; split; [done|]. split; try done.
    + by rewrite qualifying_snoc, Hq, app_nil_r.
    + intros c Hlt. rewrite class_confs_snoc, Hq, app_nil_r. by apply Hs.
    + intros c. rewrite class_confs_snoc, Hq, app_nil_r. by apply Hc.
Qed.

Lemma sample_inv_loop (classes : list string) (ds' : list (Z * detection)) :
  Forall (fun cd => 0 <= cd.1 < Z.of_nat (length classes)) ds' ->
  forall (ds : list (Z * detection)) (a : sample_acc),
    sample_inv classes ds a ->
    exists a',
      for_each (fun a cd => visit classes cd.1 a cd.2) ds' a = Ok a'
      /\ sample_inv classes (ds ++ ds') a'.
Proof.
  induction 1 as [|[cls d] ds' Hcls _ IH]; intros ds a Hinv.
  - exists a. by rewrite app_nil_r.
  - destruct (sample_inv_visit classes ds a cls d Hinv Hcls)
      as (a1 & Hv & Hinv1).
    destruct (IH _ _ Hinv1) as (a' & Hloop & Hinv').
    exists a'. rewrite for_each_cons; simpl. rewrite Hv.
    split; [done|]. by rewrite <- app_assoc in Hinv'.
Qed.

Lemma detections_of_valid (preds : predictions) (classes : list string) :
  valid_classes preds classes ->
  Forall (fun cd => 0 <= cd.1 < Z.of_nat (length classes))
    (detections_of preds).
Proof.
  unfold valid_classes, dict_keys, detections_of.
  induction preds as [|[k v] preds IH]; csimpl; [done|].
  intros [Hk Hrest]%Forall_cons. apply Forall_app; split; [|by apply IH].
  apply Forall_forall. by intros [k' d] [d' [[= -> ->] _]]%list_elem_of_fmap.
Qed.

(** The second loop: every counted class has its sum divided once. *)
Lemma average_loop (counts : dict Z Z) (ks : list Z) :
  NoDup ks ->
  forall avg : list Q,
    (forall k, k ∈ ks ->
               0 <= k < Z.of_nat (length avg)
               /\ exists n, dict_get counts k = Some n /\ n <> 0) ->
    exists avg',
      for_each (average counts) ks avg = Ok avg'
      /\ length avg' = length avg
      /\ forall (c : nat) (q : Q),
           avg !! c = Some q ->
           avg' !! c
           = Some (if decide (Z.of_nat c ∈ ks)
                   then match dict_get counts (Z.of_nat c) with
                        | Some n => (q / inject_Z n)%Q
                        | None => q
                        end
                   else q).
Proof.
  induction 1 as [|k ks Hk Hnd IH]; intros avg Hks.
  - exists avg. do 2 (split; [done|]). intros c q Hq.
    by rewrite decide_False by apply not_elem_of_nil.
  - destruct (Hks k (list_elem_of_here _ _)) as (Hrange & n & Hn & Hn0).
    destruct (lookup_lt_is_Some_2 avg (Z.to_nat k)) as [s Hs]; [lia|].
    assert (Hstep : average counts avg k
                    = Ok (<[Z.to_nat k := (s / inject_Z n)%Q]> avg)).
    { unfold average, dict_getitem, truediv.
      rewrite (getitem_valid _ _ _ (proj1 Hrange) Hs); simpl.
      rewrite Hn; simpl. destruct (Z.eqb_spec n 0); [done|]; simpl.
      by apply setitem_valid. }
    destruct (IH (<[Z.to_nat k := (s / inject_Z n)%Q]> avg))
      as (avg' & Hloop & Hlen & Hget).
    { intros k' Hk'. rewrite length_insert.
      apply Hks. by apply list_elem_of_further. }
    exists avg'. rewrite for_each_cons, Hstep.
    split; [done|]. split; [by rewrite Hlen, length_insert|].
    intros c q Hq.
    destruct (decide (Z.of_nat c = k)) as [<-|Hne].
    + rewrite Nat2Z.id in *. rewrite decide_True by apply list_elem_of_here.
      rewrite (Hget c (s / inject_Z n)%Q)
        by (apply list_lookup_insert_eq; by eapply lookup_lt_Some).
      rewrite decide_False by done. rewrite Hn. congruence.
    + rewrite (Hget c q) by (rewrite list_lookup_insert_ne; [done | lia]).
      destruct (decide (Z.of_nat c ∈ ks)) as [Hin|Hnin].
      * by rewrite decide_True by by apply list_elem_of_further.
      * rewrite decide_False; [done|].
        intros [?|?]%elem_of_cons; done.
Qed.

Lemma foldl_Qplus (qs : list Q) (a : Q) :
  (foldl Qplus a qs == a + Qsum qs)%Q.
Proof.
  revert a. induction qs as [|q qs IH]; intros a; simpl.
  - unfold Qsum; simpl. ring.
  - rewrite IH. unfold Qsum; simpl. ring.
Qed.

Lemma class_confs_elem (c : Z) (ds : list (Z * detection)) :
  class_confs c ds <> [] -> exists d, (c, d) ∈ ds.
Proof.
  unfold class_confs, qualifying. intros Hne.
  destruct (filter (fun cd => cd.1 = c) (filter (fun cd => qualifies cd.2) ds))
    as [|[c' d] l] eqn:Hf; [done|].
  assert (Hin : (c', d) ∈ filter (fun cd : Z * detection => cd.1 = c)
                           (filter (fun cd => qualifies cd.2) ds))
    by (rewrite Hf; apply list_elem_of_here).
  apply list_elem_of_filter in Hin as [Hc Hin]. simpl in Hc. subst c'.
  apply list_elem_of_filter in Hin as [_ Hin]. by exists d.
Qed.

Lemma sample_loops_spec (preds : predictions) (classes : list string) :
  NoDup (dict_keys preds) ->
  valid_classes preds classes ->
  exists a,
    sample_loops preds classes = Ok a
    /\ map box_summary (acc_box_data a)
       = map detection_summary (qualifying (detections_of preds))
    /\ length (avg_conf_per_class a) = length classes
    /\ forall c : nat,
         (c < length classes)%nat ->
         exists q,
           avg_conf_per_class a !! c = Some q
           /\ (q == expected_avg (class_confs (Z.of_nat c) (detections_of preds)))%Q
           /\ (class_confs (Z.of_nat c) (detections_of preds) = [] -> q = 0%Q).
Proof.
  intros Hnd Hvalid. unfold sample_loops.
  rewrite (visit_class_flat classes preds _ Hnd).
  pose proof (detections_of_valid preds classes Hvalid) as Hds.
  destruct (sample_inv_loop classes (detections_of preds) Hds []
              _ (sample_inv_init classes)) as (a & -> & Hinv).
  simpl in Hinv. destruct Hinv as [Hb Hl Hs Hc Hk]. simpl.
  destruct (average_loop (pred_class_count a) (dict_keys (pred_class_count a))
              Hk (avg_conf_per_class a)) as (avg' & -> & Hlen & Hget).
  { intros k Hin. apply dict_get_is_Some in Hin as [n Hn].
    rewrite Hc in Hn.
    destruct (class_confs k (detections_of preds)) as [|q qs] eqn:Hqs;
      [done|].
    destruct (class_confs_elem k (detections_of preds)) as [d Hd];
      [by rewrite Hqs|].
    split.
    - rewrite Hl. rewrite Forall_forall in Hds. apply (Hds _ Hd).
    - exists n. rewrite Hc, Hqs. split; [done|].
      injection Hn as <-. simpl. lia. }
  eexists; split; [done|]. simpl.
  split; [done|]. split; [lia|].
  intros c Hlt. rewrite (Hget c _ (Hs c Hlt)).
  eexists; split; [done|].
  rewrite Hc.
  destruct (class_confs (Z.of_nat c) (detections_of preds)) as [|q qs] eqn:Hqs.
  - rewrite decide_False; [by split|].
    intros Hin%dict_get_is_Some. rewrite Hc, Hqs in Hin. by destruct Hin.
  - rewrite decide_True.
    2:{ apply dict_get_is_Some. rewrite Hc, Hqs. by eexists. }
    split; [|done]. unfold expected_avg.
    rewrite foldl_Qplus. apply Qdiv_comp; [ring | reflexivity].
Qed.

Lemma visit_length (classes : list string) (cls : Z) (a a' : sample_acc)
  (d : detection) :
  visit classes cls a d = Ok a' ->
  length (avg_conf_per_class a') = length (avg_conf_per_class a).
Proof.
  unfold visit.
  destruct (Qle_bool _ _); [|by intros [= <-]].
  destruct (getitem classes cls); simpl; [|done].
  destruct (getitem (avg_conf_per_class a) cls); simpl; [|done].
  destruct (setitem _ _ _) as [l'|] eqn:Hset; simpl; [|done].
  apply setitem_length in Hset.
  destruct (dict_in _ _); simpl;
    [destruct (dict_getitem _ _); simpl; [|done] |];
    by intros [= <-].
Qed.

Lemma average_length (counts : dict Z Z) (avg avg' : list Q) (k : Z) :
  average counts avg k = Ok avg' -> length avg' = length avg.
Proof.
  unfold average.
  destruct (getitem avg k); simpl; [|done].
  destruct (dict_getitem _ _); simpl; [|done].
  destruct (truediv _ _); simpl; [|done].
  apply setitem_length.
Qed.

(** Whatever the class ids are, the averages list keeps the length it was
    created with. *)
Lemma sample_loops_length (preds : predictions) (classes : list string)
  (a : sample_acc) :
  sample_loops preds classes = Ok a ->
  length (avg_conf_per_class a) = length classes.
Proof.
  unfold sample_loops.
  destruct (for_each (visit_class classes preds) (dict_keys preds) _)
    as [a1|] eqn:Hloop1; simpl; [|done].
  assert (Hlen1 : length (avg_conf_per_class a1) = length classes).
  { eapply (for_each_preserves
              (fun a => length (avg_conf_per_class a) = length classes));
      [| | exact Hloop1]; [|simpl; apply length_replicate].
    intros s cls s' Hs. unfold visit_class.
    destruct (dict_getitem preds cls) as [dets|]; simpl; [|done].
    intros Hdets.
    eapply (for_each_preserves
              (fun a => length (avg_conf_per_class a) = length classes));
      [| exact Hs | exact Hdets].
    intros s0 d s0' Hs0 Hv. apply visit_length in Hv. congruence. }
  destruct (for_each (average _) _ _) as [avg'|] eqn:Hloop2; simpl; [|done].
  intros [= <-]; simpl. rewrite <- Hlen1.
  eapply (for_each_preserves
            (fun l : list Q => length l = length (avg_conf_per_class a1)));
    [| | exact Hloop2]; [|done].
  intros l k l' Hl Hav. apply average_length in Hav. congruence.
Qed.

End SampleFacts.

(** C1. For a per-class detection mapping (a dictionary, so with distinct
    keys) whose class ids all index the class-name list, that is
    [0 <= id < len(classes)], [_log_eval_sample] returns a row whose image
    carries exactly one box per detection of confidence at least 0.25, in the order
    of the mapping, and whose average for a class is the sum of that class's
    qualifying confidences over their number, and [0] for a class with none.
    On [{0: [(0,0,10,10,0.9)], 1: [(5,5,8,8,0.1)]}] with classes
    [["cat", "dog"]] the row has the single box of class 0 and confidence
    0.9, and the averages [[0.9, 0]]. *)
Theorem eval_sample_row (E : Externals) :
  (forall (sample_id : Z) (sample_path : string) (preds : predictions)
          (classes : list string),
     NoDup (dict_keys preds) ->
     valid_classes preds classes ->
     exists (boxes : list box) (avgs : list Q),
       NanoDetWandbLogger._log_eval_sample sample_id sample_path preds classes
       = Ok (CId sample_id
             :: CImage {| image_path := sample_path;
                          box_data := boxes;
                          class_labels := enumerate classes;
                          image_classes := enumerate classes |}
             :: map CNum avgs)
       /\ map box_summary boxes
          = map detection_summary (qualifying (detections_of preds))
       /\ length boxes = length (qualifying (detections_of preds))
       /\ length avgs = length classes
       /\ forall c : nat,
            (c < length classes)%nat ->
            exists q : Q,
              avgs !! c = Some q
              /\ (q == expected_avg
                         (class_confs (Z.of_nat c) (detections_of preds)))%Q
              /\ (class_confs (Z.of_nat c) (detections_of preds) = [] ->
                  q = 0%Q))
  /\ (forall sample_path : string,
        NanoDetWandbLogger._log_eval_sample 1 sample_path example_preds
          ["cat"; "dog"]
        = Ok [CId 1;
              CImage {| image_path := sample_path;
                        box_data :=
                          [{| box_position := {| minX := 0; minY := 0;
                                                 maxX := 10; maxY := 10 |};
                              class_id := 0;
                              box_caption := "cat " +:+ format_3f (9 # 10);
                              class_score := 9 # 10;
                              domain := "pixel" |}];
                        class_labels := [(0, "cat"); (1, "dog")];
                        image_classes := [(0, "cat"); (1, "dog")] |};
              CNum (9 # 10); CNum 0]).
Proof.
  split; [| reflexivity].
  intros sample_id sample_path preds classes Hnd Hvalid.
  destruct (sample_loops_spec preds classes Hnd Hvalid)
    as (a & Hloops & Hb & Hl & Havg).
  exists (acc_box_data a), (avg_conf_per_class a).
  unfold NanoDetWandbLogger._log_eval_sample. rewrite Hloops.
  split; [done|]. split; [done|]. split; [|by split].
  by rewrite <- (length_map box_summary), Hb, length_map.
Qed.

Lemma eval_sample_row_witness :
  exists (boxes : list box) (avgs : list Q),
    NanoDetWandbLogger._log_eval_sample (H := demo_externals) 1 "val/a.jpg"
      example_preds ["cat"; "dog"]
    = Ok (CId 1
          :: CImage {| image_path := "val/a.jpg";
                       box_data := boxes;
                       class_labels := [(0, "cat"); (1, "dog")];
                       image_classes := [(0, "cat"); (1, "dog")] |}
          :: map CNum avgs)
    /\ length boxes = 1%nat
    /\ length avgs = 2%nat.
Proof.
  destruct (proj1 (eval_sample_row demo_externals) 1 "val/a.jpg"
              example_preds ["cat"; "dog"])
    as (boxes & avgs & Hrow & _ & Hboxes & Havgs & _).
  - apply (bool_decide_unpack _). reflexivity.
  - unfold valid_classes; simpl. repeat constructor; lia.
  - by exists boxes, avgs.
Defined.

(** ** The evaluation table *)

Section TableFacts.
Context `{Externals}.
Import NanoDetWandbLogger.

Lemma max_len_le (self : t) (results : dict Z predictions) :
  max_len self results <= Z.of_nat (length (dict_keys results)).
Proof. unfold max_len. lia. Qed.

Lemma selected_take (self : t) (results : dict Z predictions) :
  0 <= _num_eval_samples self ->
  selected self results
  = take (Z.to_nat (max_len self results)) (dict_keys results).
Proof.
  intros Hn. unfold selected, slice_to.
  destruct (Z.leb_spec 0 (max_len self results)) as [|Hneg]; [done|].
  unfold max_len in Hneg. lia.
Qed.

Lemma selected_length (self : t) (results : dict Z predictions) :
  0 <= _num_eval_samples self ->
  Z.of_nat (length (selected self results)) = max_len self results.
Proof.
  intros Hn. rewrite selected_take, length_take by done.
  pose proof (max_len_le self results). unfold max_len in *. lia.
Qed.

Lemma selected_subseteq (self : t) (results : dict Z predictions) (k : Z) :
  k ∈ selected self results -> k ∈ dict_keys results.
Proof.
  unfold selected, slice_to.
  destruct (0 <=? _); intros [i [Hi _]]%elem_of_take;
    by eapply list_elem_of_lookup_2.
Qed.

Lemma selected_nil_max_len (self : t) (results : dict Z predictions) :
  selected self results = [] -> max_len self results <= 0.
Proof.
  unfold selected, slice_to. intros Hsel.
  destruct (Z.leb_spec 0 (max_len self results)) as [Hpos|Hneg]; [|lia].
  apply (f_equal length) in Hsel. rewrite length_take in Hsel. simpl in Hsel.
  pose proof (max_len_le self results). lia.
Qed.

Lemma ensure_skip (self : t) (results : dict Z predictions) (cfg : config) :
  max_len self results <= 0 \/ is_Some (_id_to_name self) ->
  ensure_id_to_name self results cfg = self.
Proof.
  unfold ensure_id_to_name. intros [Hle|[d Hd]].
  - by destruct (Z.gtb_spec (max_len self results) 0); [lia|].
  - rewrite Hd. by rewrite andb_false_r.
Qed.

Lemma ensure_build (self : t) (results : dict Z predictions) (cfg : config) :
  0 < max_len self results ->
  _id_to_name self = None ->
  ensure_id_to_name self results cfg
  = mk (_num_eval_samples self)
       (Some (id_to_name_of (build_dataset (data_val cfg) "test")))
       (_prefix self)
       (trace self ++ [BuildDataset (data_val cfg) "test"]).
Proof.
  unfold ensure_id_to_name. intros Hpos ->.
  by destruct (Z.gtb_spec (max_len self results) 0); [|lia].
Qed.

(** [ensure_id_to_name] changes neither the cap nor, therefore, the
    selection. *)
Lemma ensure_num (self : t) (results : dict Z predictions) (cfg : config) :
  _num_eval_samples (ensure_id_to_name self results cfg)
  = _num_eval_samples self.
Proof.
  unfold ensure_id_to_name. by destruct (_ && _).
Qed.

Lemma ensure_selected (self : t) (results results' : dict Z predictions)
  (cfg : config) :
  selected (ensure_id_to_name self results' cfg) results
  = selected self results.
Proof.
  unfold selected, max_len. by rewrite ensure_num.
Qed.

Lemma dict_get_elem {K V : Type} `{EqDecision K} (d : dict K V) (k : K)
  (v : V) :
  dict_get d k = Some v -> (k, v) ∈ d.
Proof.
  induction d as [|[k' v'] d IH]; simpl; [done|].
  destruct (decide (k' = k)) as [->|Hne].
  - intros [= ->]. apply list_elem_of_here.
  - intros Hg. by apply list_elem_of_further, IH.
Qed.

Lemma eval_row_ok (self : t) (results : dict Z predictions) (cfg : config)
  (rows : list (list cell)) (k : Z) :
  valid_results results (class_names cfg) ->
  k ∈ dict_keys results ->
  resolves (_id_to_name self) k ->
  exists row,
    eval_row self results cfg rows k = Ok (rows ++ [row])
    /\ row_for (class_names cfg) row k.
Proof.
  intros Hvalid Hk (d & name & Hd & Hname).
  apply dict_get_is_Some in Hk as [p Hp].
  unfold valid_results in Hvalid. rewrite Forall_forall in Hvalid.
  destruct (Hvalid _ (dict_get_elem _ _ _ Hp)) as [Hnd Hcls]; simpl in *.
  destruct (sample_loops_spec p (class_names cfg) Hnd Hcls)
    as (a & Hloops & _ & Hlen & _).
  unfold eval_row, dict_getitem, _log_eval_sample.
  rewrite Hp, Hd; simpl. rewrite Hname; simpl. rewrite Hloops; simpl.
  eexists; split; [done|]. split; [done|].
  simpl. by rewrite length_map, Hlen.
Qed.

Lemma eval_rows_ok (self : t) (results : dict Z predictions) (cfg : config)
  (ks : list Z) :
  valid_results results (class_names cfg) ->
  Forall (fun k => k ∈ dict_keys results) ks ->
  Forall (resolves (_id_to_name self)) ks ->
  forall rows0 : list (list cell),
    exists rows,
      for_each (eval_row self results cfg) ks rows0 = Ok (rows0 ++ rows)
      /\ Forall2 (row_for (class_names cfg)) rows ks.
Proof.
  intros Hvalid Hin Hres. revert Hres.
  induction Hin as [|k ks Hk _ IH]; intros Hres rows0.
  - exists []. by rewrite app_nil_r.
  - apply Forall_cons in Hres as [Hrk Hres].
    destruct (eval_row_ok self results cfg rows0 k Hvalid Hk Hrk)
      as (row & Hrow & Hfor).
    destruct (IH Hres (rows0 ++ [row])) as (rows & Hrows & Hall).
    exists (row :: rows). rewrite for_each_cons, Hrow, Hrows.
    split; [by rewrite <- app_assoc | by constructor].
Qed.

(** Rows exist only as results of [_log_eval_sample], so each has one
    entry per column whatever the predictions are. *)
Lemma eval_rows_arity (self : t) (results : dict Z predictions) (cfg : config)
  (ks : list Z) (rows0 rows : list (list cell)) :
  for_each (eval_row self results cfg) ks rows0 = Ok rows ->
  Forall (fun row => length row = (2 + length (class_names cfg))%nat) rows0 ->
  Forall (fun row => length row = (2 + length (class_names cfg))%nat) rows.
Proof.
  intros Hloop Hrows0.
  eapply (for_each_preserves
            (Forall (fun row => length row
                                = (2 + length (class_names cfg))%nat)));
    [| exact Hrows0 | exact Hloop].
  intros rs k rs' Hrs. unfold eval_row.
  destruct (dict_getitem results k) as [p|]; simpl; [|done].
  destruct (_id_to_name self) as [d|]; simpl; [|done].
  destruct (dict_getitem d k) as [name|]; simpl; [|done].
  unfold _log_eval_sample.
  destruct (sample_loops p (class_names cfg)) as [a|] eqn:Hloops; simpl;
    [|done].
  intros [= <-]. apply Forall_app; split; [done|].
  apply Forall_singleton. simpl.
  by rewrite length_map, (sample_loops_length _ _ _ Hloops).
Qed.

Lemma eval_row_inv (self : t) (results : dict Z predictions) (cfg : config)
  (rows rows' : list (list cell)) (k : Z) :
  eval_row self results cfg rows k = Ok rows' ->
  exists row, rows' = rows ++ [row] /\ row_for (class_names cfg) row k.
Proof.
  unfold eval_row.
  destruct (dict_getitem results k) as [p|]; simpl; [|done].
  destruct (_id_to_name self) as [d|]; simpl; [|done].
  destruct (dict_getitem d k) as [name|]; simpl; [|done].
  unfold _log_eval_sample.
  destruct (sample_loops p (class_names cfg)) as [a|] eqn:Hloops; simpl;
    [|done].
  intros [= <-]. eexists; split; [done|]. split; [done|].
  simpl. by rewrite length_map, (sample_loops_length _ _ _ Hloops).
Qed.

(** When the loop over the selected ids returns, it has added one row per
    id, in order. *)
Lemma eval_rows_inv (self : t) (results : dict Z predictions) (cfg : config)
  (ks : list Z) :
  forall rows0 rows : list (list cell),
    for_each (eval_row self results cfg) ks rows0 = Ok rows ->
    exists new, rows = rows0 ++ new
                /\ Forall2 (row_for (class_names cfg)) new ks.
Proof.
  induction ks as [|k ks IH]; intros rows0 rows.
  - intros [= <-]. exists []. by rewrite app_nil_r.
  - rewrite for_each_cons.
    destruct (eval_row self results cfg rows0 k) as [rows1|] eqn:Hrow;
      [|done].
    apply eval_row_inv in Hrow as (row & -> & Hfor).
    intros (new & -> & Hall)%IH.
    exists (row :: new). split; [by rewrite <- app_assoc | by constructor].
Qed.

Lemma ensure_trace (self : t) (results : dict Z predictions) (cfg : config) :
  trace (ensure_id_to_name self results cfg)
  = trace self
    ++ if (max_len self results >? 0)
          && match _id_to_name self with None => true | Some _ => false end
       then [BuildDataset (data_val cfg) "test"]
       else [].
Proof.
  unfold ensure_id_to_name. destruct (_ && _); simpl; [done|].
  by rewrite app_nil_r.
Qed.

(** What one run of the table builder adds to the trace: at most one call
    of the dataset provider, then at most one table. *)
Lemma body_events (self : t) (results : dict Z predictions) (cfg : config) :
  events_since self (_log_eval_table_body results cfg self).1
  = (if (max_len self results >? 0)
        && match _id_to_name self with None => true | Some _ => false end
     then [BuildDataset (data_val cfg) "test"]
     else [])
    ++ match eval_table_rows (ensure_id_to_name self results cfg) results cfg
       with
       | Ok (row :: rows) =>
           [LogTable "eval_samples"
              ("id" :: "prediction" :: class_names cfg) (row :: rows)]
       | _ => []
       end.
Proof.
  unfold events_since, _log_eval_table_body.
  destruct (eval_table_rows _ _ _) as [[|row rows]|e]; simpl;
    rewrite ensure_trace, ?app_nil_r, <- ?app_assoc;
    by rewrite drop_app_length.
Qed.

Lemma body_id_to_name (self : t) (results : dict Z predictions)
  (cfg : config) :
  _id_to_name (_log_eval_table_body results cfg self).1
  = _id_to_name (ensure_id_to_name self results cfg).
Proof.
  unfold _log_eval_table_body.
  by destruct (eval_table_rows _ _ _) as [[|row rows]|e].
Qed.

End TableFacts.

(** C5. With a cap [num_eval_samples >= 0], the loop of [_log_eval_table]
    visits exactly the first [min(len(results), num_eval_samples)] sample
    ids of [results], in its iteration order, and when it returns it has
    produced exactly that many rows, the i-th being the row of the i-th id.
    It does return, and submits the rows when there is at least one, when
    each visited id has a file name in the cache and the predictions are
    well formed. With 20 entries and a cap of 16 the ids visited are the
    first 16 and the rows produced are 16. *)
Theorem eval_table_sample_cap (E : Externals) (self : NanoDetWandbLogger.t)
  (results : dict Z predictions) (cfg : NanoDetWandbLogger.config) :
  0 <= NanoDetWandbLogger._num_eval_samples self ->
  NanoDetWandbLogger.selected self results
  = take (Z.to_nat (Z.min (Z.of_nat (length results))
                      (NanoDetWandbLogger._num_eval_samples self)))
      (dict_keys results)
  /\ Z.of_nat (length (NanoDetWandbLogger.selected self results))
     = Z.min (Z.of_nat (length results))
         (NanoDetWandbLogger._num_eval_samples self)
  /\ (forall rows : list (list cell),
        NanoDetWandbLogger.eval_table_rows
          (NanoDetWandbLogger.ensure_id_to_name self results cfg) results cfg
        = Ok rows ->
        Z.of_nat (length rows)
        = Z.min (Z.of_nat (length results))
            (NanoDetWandbLogger._num_eval_samples self)
        /\ Forall2 (row_for (NanoDetWandbLogger.class_names cfg)) rows
             (take (Z.to_nat (Z.min (Z.of_nat (length results))
                                (NanoDetWandbLogger._num_eval_samples self)))
                (dict_keys results)))
  /\ (valid_results results (NanoDetWandbLogger.class_names cfg) ->
      Forall (resolves (NanoDetWandbLogger._id_to_name
                          (NanoDetWandbLogger.ensure_id_to_name self results
                             cfg)))
        (NanoDetWandbLogger.selected self results) ->
      exists rows : list (list cell),
        NanoDetWandbLogger.eval_table_rows
          (NanoDetWandbLogger.ensure_id_to_name self results cfg) results cfg
        = Ok rows
        /\ (NanoDetWandbLogger._log_eval_table_body results cfg self).2
           = Ok ()
        /\ filter NanoDetWandbLogger.is_table
             (events_since self
                (NanoDetWandbLogger._log_eval_table_body results cfg self).1)
           = match rows with
             | [] => []
             | _ :: _ =>
                 [NanoDetWandbLogger.LogTable "eval_samples"
                    ("id" :: "prediction"
                     :: NanoDetWandbLogger.class_names cfg)
                    rows]
             end)
  /\ (length results = 20%nat ->
      NanoDetWandbLogger._num_eval_samples self = 16 ->
      NanoDetWandbLogger.selected self results = take 16 (dict_keys results)
      /\ length (NanoDetWandbLogger.selected self results) = 16%nat
      /\ forall rows : list (list cell),
           NanoDetWandbLogger.eval_table_rows
             (NanoDetWandbLogger.ensure_id_to_name self results cfg)
             results cfg
           = Ok rows ->
           length rows = 16%nat).
Proof.
  intros Hnum.
  pose proof (selected_take self results Hnum) as Hsel.
  pose proof (selected_length self results Hnum) as Hlen.
  assert (Hkeys : length (dict_keys results) = length results)
    by apply length_fmap.
  unfold NanoDetWandbLogger.max_len in Hsel, Hlen.
  rewrite Hkeys in Hsel, Hlen.
  assert (Hinv : forall rows : list (list cell),
             NanoDetWandbLogger.eval_table_rows
               (NanoDetWandbLogger.ensure_id_to_name self results cfg)
               results cfg = Ok rows ->
             Forall2 (row_for (NanoDetWandbLogger.class_names cfg)) rows
               (NanoDetWandbLogger.selected self results)).
  { intros rows Hrows. unfold NanoDetWandbLogger.eval_table_rows in Hrows.
    rewrite ensure_selected in Hrows.
    by apply eval_rows_inv in Hrows as (new & -> & Hall). }
  split; [exact Hsel|]. split; [exact Hlen|]. split; [|split].
  - intros rows Hall%Hinv.
    pose proof (Forall2_length _ _ _ Hall) as Hlr.
    split; [lia | by rewrite <- Hsel].
  - intros Hvalid Hres.
    destruct (eval_rows_ok
                (NanoDetWandbLogger.ensure_id_to_name self results cfg)
                results cfg (NanoDetWandbLogger.selected self results) Hvalid)
      with (rows0 := @nil (list cell)) as (rows & Hrows & Hall).
    { apply Forall_forall. intros k Hk. by eapply selected_subseteq. }
    { exact Hres. }
    assert (Hrows' : NanoDetWandbLogger.eval_table_rows
                       (NanoDetWandbLogger.ensure_id_to_name self results cfg)
                       results cfg = Ok rows).
    { unfold NanoDetWandbLogger.eval_table_rows.
      by rewrite ensure_selected. }
    exists rows. split; [done|]. split.
    + unfold NanoDetWandbLogger._log_eval_table_body. rewrite Hrows'.
      by destruct rows.
    + rewrite body_events, Hrows', filter_app.
      destruct (_ && _); destruct rows; done.
  - intros H20 H16. rewrite H20, H16 in *.
    split; [exact Hsel|]. split; [lia|].
    intros rows Hall%Hinv.
    pose proof (Forall2_length _ _ _ Hall) as Hlr. lia.
Qed.

Lemma eval_table_sample_cap_witness :
  NanoDetWandbLogger.selected (H := demo_externals)
    (NanoDetWandbLogger.init 16) twenty_results
  = [0; 1; 2; 3; 4; 5; 6; 7; 8; 9; 10; 11; 12; 13; 14; 15]
  /\ exists rows : list (list cell),
       NanoDetWandbLogger.eval_table_rows
         (NanoDetWandbLogger.ensure_id_to_name (NanoDetWandbLogger.init 16)
            twenty_results (demo_cfg twenty_images ["cat"; "dog"]))
         twenty_results (demo_cfg twenty_images ["cat"; "dog"])
       = Ok rows
       /\ length rows = 16%nat.
Proof.
  destruct (eval_table_sample_cap demo_externals (NanoDetWandbLogger.init 16)
              twenty_results (demo_cfg twenty_images ["cat"; "dog"]))
    as (Hsel & _ & _ & Hok & H16); [simpl; lia|].
  split; [exact Hsel|].
  destruct Hok as (rows & Hrows & _).
  - apply Forall_forall. intros [k p] Hin.
    apply list_elem_of_fmap in Hin as [i [[= -> ->] _]]. simpl.
    split; [apply (bool_decide_unpack _); reflexivity |].
    unfold valid_classes; simpl. repeat constructor; lia.
  - vm_compute.
    repeat (constructor; [eexists _, _; split; reflexivity |]).
    constructor.
  - exists rows. split; [exact Hrows|]. by apply H16.
Defined.

(** C6 (as the code has it). A run of [_log_eval_table] that selects no
    sample produces no row, submits nothing and leaves the sink as it was.
    A run that returns has produced one row per selected sample, whatever
    the confidences of its detections. In every run the table submissions
    are: none when the loop raised or produced no row, and otherwise the
    single table keyed ["eval_samples"] with columns
    [["id", "prediction", *class_names]] holding the rows produced. *)
Theorem eval_table_submission (E : Externals) (self : NanoDetWandbLogger.t)
  (results : dict Z predictions) (cfg : NanoDetWandbLogger.config) :
  (NanoDetWandbLogger.selected self results = [] ->
   NanoDetWandbLogger.eval_table_rows
     (NanoDetWandbLogger.ensure_id_to_name self results cfg) results cfg
   = Ok []
   /\ NanoDetWandbLogger._log_eval_table_body results cfg self = (self, Ok ()))
  /\ (forall rows : list (list cell),
        NanoDetWandbLogger.eval_table_rows
          (NanoDetWandbLogger.ensure_id_to_name self results cfg) results cfg
        = Ok rows ->
        length rows = length (NanoDetWandbLogger.selected self results))
  /\ filter NanoDetWandbLogger.is_table
       (events_since self
          (NanoDetWandbLogger._log_eval_table_body results cfg self).1)
     = match NanoDetWandbLogger.eval_table_rows
               (NanoDetWandbLogger.ensure_id_to_name self results cfg)
               results cfg
       with
       | Ok (row :: rows) =>
           [NanoDetWandbLogger.LogTable "eval_samples"
              ("id" :: "prediction" :: NanoDetWandbLogger.class_names cfg)
              (row :: rows)]
       | _ => []
       end.
Proof.
  split; [|split].
  - intros Hsel.
    assert (Hrows : NanoDetWandbLogger.eval_table_rows
                      (NanoDetWandbLogger.ensure_id_to_name self results cfg)
                      results cfg = Ok []).
    { unfold NanoDetWandbLogger.eval_table_rows.
      by rewrite ensure_selected, Hsel. }
    split; [done|].
    unfold NanoDetWandbLogger._log_eval_table_body. rewrite Hrows.
    rewrite ensure_skip; [done|]. left. by apply selected_nil_max_len.
  - intros rows Hrows. unfold NanoDetWandbLogger.eval_table_rows in Hrows.
    rewrite ensure_selected in Hrows.
    apply eval_rows_inv in Hrows as (new & -> & Hall).
    by apply Forall2_length in Hall.
  - rewrite body_events, filter_app.
    destruct (_ && _);
      by destruct (NanoDetWandbLogger.eval_table_rows _ _ _) as [[|row rows]|e].
Qed.

Lemma eval_table_submission_witness :
  NanoDetWandbLogger._log_eval_table_body (H := demo_externals) faint_results
    (demo_cfg [{| img_id := 1; file_name := "a.jpg" |}] ["cat"])
    (NanoDetWandbLogger.init 0)
  = (NanoDetWandbLogger.init 0, Ok ()).
Proof.
  apply (eval_table_submission demo_externals (NanoDetWandbLogger.init 0)
           faint_results
           (demo_cfg [{| img_id := 1; file_name := "a.jpg" |}] ["cat"])).
  reflexivity.
Defined.

(** C6 fails as stated: the only detection of the only sample has
    confidence 0.1, below 0.25, and the builder still produces a row for the
    sample, with no box and average 0, and submits the table. *)
Lemma faint_sample_still_submitted :
  qualifying (detections_of
                [(0, [{| x1 := 0; y1 := 0; x2 := 10; y2 := 10;
                         conf := 1 # 10 |}])]) = []
  /\ NanoDetWandbLogger._log_eval_table_body (H := demo_externals)
       faint_results
       (demo_cfg [{| img_id := 1; file_name := "a.jpg" |}] ["cat"])
       (NanoDetWandbLogger.init 16)
     = (NanoDetWandbLogger.mk 16 (Some [(1, "a.jpg")]) None
          [NanoDetWandbLogger.BuildDataset
             (("val", [{| img_id := 1; file_name := "a.jpg" |}])
              : @val_cfg demo_externals) "test";
           NanoDetWandbLogger.LogTable "eval_samples"
             ["id"; "prediction"; "cat"]
             [[CId 1;
               CImage {| image_path := "val/a.jpg";
                         box_data := [];
                         class_labels := [(0, "cat")];
                         image_classes := [(0, "cat")] |};
               CNum 0]]],
        Ok ()).
Proof.
  split; reflexivity.
Qed.

(** ** The cache of file names *)

Section CacheFacts.
Context `{Externals}.
Import NanoDetWandbLogger.

Lemma body_trace (self : t) (results : dict Z predictions) (cfg : config) :
  trace (_log_eval_table_body results cfg self).1
  = trace self
    ++ events_since self (_log_eval_table_body results cfg self).1.
Proof.
  unfold events_since, _log_eval_table_body.
  destruct (eval_table_rows _ _ _) as [[|row rows]|e]; simpl;
    rewrite ensure_trace, <- ?app_assoc;
    by rewrite drop_app_length.
Qed.

(** What a call can be, as far as the sink is concerned. *)
Lemma step_cases (rank : Z) (self : t) (c : call) :
  step rank self c = self
  \/ (exists m st p, step rank self c = (log_metrics_body m st p self).1)
  \/ (exists results cfg,
        step rank self c = (_log_eval_table_body results cfg self).1).
Proof.
  destruct (Z.eqb_spec rank 0) as [->|Hr].
  - destruct c as [s|m st p|results cfg|n|results cfg]; simpl.
    + by left.
    + right; left. by exists m, st, p.
    + right; right. exists results, cfg.
      unfold log_val_results, log_val_results_body, _log_eval_table,
        rank_zero_only; simpl.
      by destruct (_log_eval_table_body results cfg self).
    + by left.
    + right; right. exists results, cfg.
      unfold _log_eval_table, rank_zero_only; simpl.
      by destruct (_log_eval_table_body results cfg self).
  - left. destruct c; simpl;
      unfold info, log_metrics, log_val_results, dump_cfg, _log_eval_table;
      by rewrite rank_zero_only_skip.
Qed.

Lemma log_val_results_coordinator (self : t) (results : dict Z predictions)
  (cfg : config) :
  (log_val_results 0 self results cfg).1
  = (_log_eval_table_body results cfg self).1.
Proof.
  unfold log_val_results, log_val_results_body, _log_eval_table,
    rank_zero_only; simpl.
  by destruct (_log_eval_table_body results cfg self).
Qed.

Lemma log_val_results_other (rank : Z) (self : t)
  (results : dict Z predictions) (cfg : config) :
  rank <> 0 -> (log_val_results rank self results cfg).1 = self.
Proof.
  intros Hr. unfold log_val_results. by rewrite rank_zero_only_skip.
Qed.

Lemma events_since_refl (self : t) : events_since self self = [].
Proof. unfold events_since. apply drop_all. Qed.

Lemma ensure_builds (self : t) (results : dict Z predictions) (cfg : config) :
  filter is_build
    (events_since self (_log_eval_table_body results cfg self).1)
  = if (max_len self results >? 0)
       && match _id_to_name self with None => true | Some _ => false end
    then [BuildDataset (data_val cfg) "test"]
    else [].
Proof.
  rewrite body_events, filter_app.
  destruct (_ && _);
    by destruct (eval_table_rows _ _ _) as [[|row rows]|e].
Qed.

(** A built cache survives every call, and no call asks the provider
    again. *)
Lemma step_keeps_cache (rank : Z) (self : t) (c : call) (d : dict Z string) :
  _id_to_name self = Some d ->
  _id_to_name (step rank self c) = Some d
  /\ trace (step rank self c) = trace self ++ events_since self (step rank self c)
  /\ filter is_build (events_since self (step rank self c)) = [].
Proof.
  intros Hd.
  destruct (step_cases rank self c)
    as [-> | [(m & st & p & ->) | (results & cfg & ->)]].
  - by rewrite events_since_refl, app_nil_r.
  - unfold events_since; simpl. by rewrite drop_app_length.
  - rewrite body_id_to_name, ensure_builds, <- body_trace.
    rewrite ensure_skip by (right; by eexists). rewrite Hd.
    by rewrite andb_false_r.
Qed.

(** While the cache is empty, a call either leaves it empty and does not
    ask the provider, or fills it and asks once. *)
Lemma step_fills_cache (rank : Z) (self : t) (c : call) :
  _id_to_name self = None ->
  trace (step rank self c) = trace self ++ events_since self (step rank self c)
  /\ (_id_to_name (step rank self c) = None
      /\ filter is_build (events_since self (step rank self c)) = []
      \/ is_Some (_id_to_name (step rank self c))
         /\ length (filter is_build (events_since self (step rank self c)))
            = 1%nat).
Proof.
  intros Hd.
  destruct (step_cases rank self c)
    as [-> | [(m & st & p & ->) | (results & cfg & ->)]].
  - rewrite events_since_refl, app_nil_r. split; [done|]. by left.
  - unfold events_since; simpl. rewrite drop_app_length.
    split; [done|]. by left.
  - rewrite body_id_to_name, ensure_builds, <- body_trace. split; [done|].
    destruct (Z.gtb_spec (max_len self results) 0) as [Hpos|Hle].
    + right. rewrite ensure_build, Hd by (done || lia). simpl.
      split; [by eexists | done].
    + left. rewrite ensure_skip, Hd by (left; lia). done.
Qed.

Lemma run_builds (rank : Z) (cs : list call) :
  forall self : t,
    (_id_to_name self = None -> builds self = 0%nat) ->
    (builds self <= 1)%nat ->
    (builds (run rank self cs) <= 1)%nat.
Proof.
  induction cs as [|c cs IH]; intros self Hnone Hle; [done|].
  simpl. apply IH.
  - destruct (_id_to_name self) as [d|] eqn:Hd.
    + destruct (step_keeps_cache rank self c d Hd) as (Hd' & _ & _).
      rewrite Hd'. done.
    + destruct (step_fills_cache rank self c Hd)
        as (Htr & [[Hd' Hb] | [[d' Hd'] Hb]]).
      * intros _. unfold builds in *. rewrite Htr, filter_app, length_app, Hb.
        rewrite Hnone by done. done.
      * rewrite Hd'. done.
  - destruct (_id_to_name self) as [d|] eqn:Hd.
    + destruct (step_keeps_cache rank self c d Hd) as (_ & Htr & Hb).
      unfold builds in *. rewrite Htr, filter_app, length_app, Hb. simpl. lia.
    + destruct (step_fills_cache rank self c Hd)
        as (Htr & [[Hd' Hb] | [[d' Hd'] Hb]]);
        unfold builds in *; rewrite Htr, filter_app, length_app, Hb;
        rewrite Hnone by done; simpl; lia.
Qed.

End CacheFacts.

(** C9. The cache [_id_to_name] is built at most once in a sink's life:
    over any calls made on a newly constructed sink the dataset provider is
    asked at most once; once the cache is set, no call changes it or asks
    the provider again; and a validation-results call on the coordinator that
    finds the cache unset and selects at least one sample sets it from one
    call of the provider, while one that selects none leaves it unset. *)
Theorem id_to_name_built_once (E : Externals) :
  (forall (rank num_eval_samples : Z) (cs : list NanoDetWandbLogger.call),
     (length (filter NanoDetWandbLogger.is_build
                (NanoDetWandbLogger.trace
                   (NanoDetWandbLogger.run rank
                      (NanoDetWandbLogger.init num_eval_samples) cs)))
      <= 1)%nat)
  /\ (forall (rank : Z) (self : NanoDetWandbLogger.t)
            (c : NanoDetWandbLogger.call) (d : dict Z string),
        NanoDetWandbLogger._id_to_name self = Some d ->
        NanoDetWandbLogger._id_to_name (NanoDetWandbLogger.step rank self c)
        = Some d
        /\ filter NanoDetWandbLogger.is_build
             (events_since self (NanoDetWandbLogger.step rank self c))
           = [])
  /\ (forall (self : NanoDetWandbLogger.t) (results : dict Z predictions)
            (cfg : NanoDetWandbLogger.config),
        NanoDetWandbLogger._id_to_name self = None ->
        0 < NanoDetWandbLogger.max_len self results ->
        NanoDetWandbLogger._id_to_name
          (NanoDetWandbLogger.log_val_results 0 self results cfg).1
        = Some (NanoDetWandbLogger.id_to_name_of
                  (build_dataset (NanoDetWandbLogger.data_val cfg) "test"))
        /\ filter NanoDetWandbLogger.is_build
             (events_since self
                (NanoDetWandbLogger.log_val_results 0 self results cfg).1)
           = [NanoDetWandbLogger.BuildDataset
                (NanoDetWandbLogger.data_val cfg) "test"])
  /\ (forall (rank : Z) (self : NanoDetWandbLogger.t)
            (results : dict Z predictions) (cfg : NanoDetWandbLogger.config),
        NanoDetWandbLogger._id_to_name self = None ->
        NanoDetWandbLogger.max_len self results <= 0 ->
        NanoDetWandbLogger._id_to_name
          (NanoDetWandbLogger.log_val_results rank self results cfg).1
        = None
        /\ filter NanoDetWandbLogger.is_build
             (events_since self
                (NanoDetWandbLogger.log_val_results rank self results cfg).1)
           = []).
Proof.
  split; [|split; [|split]].
  - intros rank num cs.
    apply (run_builds rank cs); [by intros _ | unfold builds; simpl; lia].
  - intros rank self c d Hd.
    by destruct (step_keeps_cache rank self c d Hd) as (? & _ & ?).
  - intros self results cfg Hd Hpos.
    rewrite log_val_results_coordinator, body_id_to_name, ensure_builds.
    rewrite ensure_build, Hd by done. simpl.
    by destruct (Z.gtb_spec (NanoDetWandbLogger.max_len self results) 0);
      [|lia].
  - intros rank self results cfg Hd Hle.
    destruct (decide (rank = 0)) as [->|Hr].
    + rewrite log_val_results_coordinator, body_id_to_name, ensure_builds.
      rewrite ensure_skip, Hd by (by left).
      by destruct (Z.gtb_spec (NanoDetWandbLogger.max_len self results) 0);
        [lia|].
    + rewrite log_val_results_other by done.
      by rewrite events_since_refl.
Qed.

Lemma id_to_name_built_once_witness :
  NanoDetWandbLogger._id_to_name
    (NanoDetWandbLogger.log_val_results (H := demo_externals) 0
       (NanoDetWandbLogger.init 16) faint_results
       (demo_cfg [{| img_id := 1; file_name := "a.jpg" |};
                  {| img_id := 2; file_name := "b.jpg" |}] ["cat"])).1
  = Some [(1, "a.jpg"); (2, "b.jpg")]
  /\ NanoDetWandbLogger._id_to_name
       (NanoDetWandbLogger.step (H := demo_externals) 0
          (NanoDetWandbLogger.mk 16 (Some [(1, "a.jpg"); (2, "b.jpg")])
             None [])
          (NanoDetWandbLogger.LogValResults faint_results
             (demo_cfg [{| img_id := 1; file_name := "c.jpg" |}] ["cat"])))
     = Some [(1, "a.jpg"); (2, "b.jpg")].
Proof.
  destruct (id_to_name_built_once demo_externals) as (_ & Hkeep & Hfill & _).
  split.
  - apply (Hfill (NanoDetWandbLogger.init 16) faint_results
             (demo_cfg [{| img_id := 1; file_name := "a.jpg" |};
                        {| img_id := 2; file_name := "b.jpg" |}] ["cat"]));
      reflexivity.
  - apply Hkeep. reflexivity.
Defined.

(** ** Row arity *)

(** C10. A row returned by [_log_eval_sample] is the sample id, the image,
    and one average per class name: [2 + len(class_names)] entries, whatever
    class ids occur; with class ids that index [class_names] a row is
    returned. Every table submitted by [_log_eval_table] has
    [2 + len(class_names)] columns and rows of as many entries. *)
Theorem eval_row_arity (E : Externals) :
  (forall (sample_id : Z) (sample_path : string) (preds : predictions)
          (classes : list string) (row : list cell),
     NanoDetWandbLogger._log_eval_sample sample_id sample_path preds classes
     = Ok row ->
     exists (img : wandb_image) (avgs : list Q),
       row = CId sample_id :: CImage img :: map CNum avgs
       /\ length avgs = length classes
       /\ length row = (2 + length classes)%nat)
  /\ (forall (sample_id : Z) (sample_path : string) (preds : predictions)
            (classes : list string),
        NoDup (dict_keys preds) ->
        valid_classes preds classes ->
        exists row : list cell,
          NanoDetWandbLogger._log_eval_sample sample_id sample_path preds
            classes = Ok row
          /\ length row = (2 + length classes)%nat)
  /\ (forall (self : NanoDetWandbLogger.t) (results : dict Z predictions)
            (cfg : NanoDetWandbLogger.config) (key : string)
            (columns : list string) (data : list (list cell)),
        NanoDetWandbLogger.LogTable key columns data
        ∈ events_since self
            (NanoDetWandbLogger._log_eval_table_body results cfg self).1 ->
        columns = "id" :: "prediction" :: NanoDetWandbLogger.class_names cfg
        /\ length columns
           = (2 + length (NanoDetWandbLogger.class_names cfg))%nat
        /\ Forall (fun row => length row = length columns) data).
Proof.
  assert (Hrow : forall sample_id sample_path preds classes row,
             NanoDetWandbLogger._log_eval_sample sample_id sample_path preds
               classes = Ok row ->
             exists (img : wandb_image) (avgs : list Q),
               row = CId sample_id :: CImage img :: map CNum avgs
               /\ length avgs = length classes
               /\ length row = (2 + length classes)%nat).
  { intros sample_id sample_path preds classes row.
    unfold NanoDetWandbLogger._log_eval_sample.
    destruct (NanoDetWandbLogger.sample_loops preds classes) as [a|] eqn:Hl;
      simpl; [|done].
    intros [= <-]. pose proof (sample_loops_length _ _ _ Hl) as Hlen.
    eexists _, _. split; [done|]. split; [done|].
    simpl. by rewrite length_map, Hlen. }
  split; [exact Hrow|]. split.
  - intros sample_id sample_path preds classes Hnd Hvalid.
    destruct (sample_loops_spec preds classes Hnd Hvalid)
      as (a & Hloops & _ & Hlen & _).
    unfold NanoDetWandbLogger._log_eval_sample. rewrite Hloops; simpl.
    eexists; split; [done|]. simpl. by rewrite length_map, Hlen.
  - intros self results cfg key columns data.
    rewrite body_events. intros [Hin|Hin]%elem_of_app.
    + destruct (_ && _);
        [by apply list_elem_of_singleton in Hin | by apply elem_of_nil in Hin].
    + destruct (NanoDetWandbLogger.eval_table_rows _ _ _)
        as [[|row rows]|e] eqn:Hrows;
        try (by apply elem_of_nil in Hin).
      apply list_elem_of_singleton in Hin. injection Hin as -> -> ->.
      split; [done|]. split; [done|]. simpl.
      apply (eval_rows_arity _ _ _ _ [] _ Hrows). constructor.
Qed.

Lemma eval_row_arity_witness :
  exists row : list cell,
    NanoDetWandbLogger._log_eval_sample (H := demo_externals) 7 "val/a.jpg"
      example_preds ["cat"; "dog"] = Ok row
    /\ length row = 4%nat.
Proof.
  destruct (eval_row_arity demo_externals) as (_ & Hok & _).
  apply (Hok 7 "val/a.jpg" example_preds ["cat"; "dog"]).
  - apply (bool_decide_unpack _). reflexivity.
  - unfold valid_classes; simpl. repeat constructor; lia.
Defined.

(** ** The code at the edges of these statements *)

(** A class id below zero is an index from the end: class [-1] shares the
    slot of class [1], whose sum is then divided once per key. *)
Example negative_class_id_shares_slot :
  NanoDetWandbLogger.sample_loops (H := demo_externals)
    [(-1, [{| x1 := 0; y1 := 0; x2 := 1; y2 := 1; conf := 9 # 10 |}]);
     (1, [{| x1 := 0; y1 := 0; x2 := 1; y2 := 1; conf := 1 # 2 |}])]
    ["cat"; "dog"]
  = Ok {| acc_box_data :=
            [{| box_position := {| minX := 0; minY := 0; maxX := 1; maxY := 1 |};
                class_id := -1;
                box_caption := "dog conf";
                class_score := 9 # 10;
                domain := "pixel" |};
             {| box_position := {| minX := 0; minY := 0; maxX := 1; maxY := 1 |};
                class_id := 1;
                box_caption := "dog conf";
                class_score := 1 # 2;
                domain := "pixel" |}];
          avg_conf_per_class := [0%Q; 28 # 20];
          pred_class_count := [(-1, 1); (1, 1)] |}.
Proof. reflexivity. Qed.

(** A qualifying detection of a class id past the class names raises. *)
Example class_id_out_of_range_raises :
  NanoDetWandbLogger._log_eval_sample (H := demo_externals) 1 "val/a.jpg"
    [(2, [{| x1 := 0; y1 := 0; x2 := 1; y2 := 1; conf := 9 # 10 |}])]
    ["cat"; "dog"]
  = Raise IndexError.
Proof. reflexivity. Qed.

(** A sample id the cached table does not know raises, after the cache has
    been built: the assignment to [_id_to_name] stays. *)
Example unknown_sample_id_raises :
  NanoDetWandbLogger._log_eval_table_body (H := demo_externals) [(5, [])]
    (demo_cfg [] ["cat"]) (NanoDetWandbLogger.init 3)
  = (NanoDetWandbLogger.mk 3 (Some []) None
       [NanoDetWandbLogger.BuildDataset
          (("val", []) : @val_cfg demo_externals) "test"],
     Raise KeyError).
Proof. reflexivity. Qed.

(** A cap below zero is a slice bound counted from the end. *)
Example negative_cap_slices_from_end :
  NanoDetWandbLogger.selected (H := demo_externals)
    (NanoDetWandbLogger.init (-1)) [(5, []); (6, []); (7, [])]
  = [5; 6].
Proof. reflexivity. Qed.

(** On the coordinator the gated calls do write. *)
Example coordinator_logs :
  NanoDetLightningLogger.log 0
    (NanoDetLightningLogger.mk "NanoDet" "v" "logs-v" None [] []) "epoch 1"
  = (NanoDetLightningLogger.mk "NanoDet" "v" "logs-v" None ["epoch 1"] [],
     Ok (Some ())).
Proof. reflexivity. Qed.

(** * Further properties of the module *)

(** ** Windowed statistic *)

Section MovingAverageMore.
Import MovingAverage.

Lemma run_window_size (cs : list call) (self : t) :
  window_size (run self cs) = window_size self.
Proof.
  revert self. induction cs as [|c cs IH]; intros self; [done|].
  simpl. unfold run in IH. rewrite IH. by destruct c.
Qed.

Lemma run_app (cs1 cs2 : list call) (self : t) :
  run self (cs1 ++ cs2) = run (run self cs1) cs2.
Proof. unfold run. apply foldl_app. Qed.

Lemma run_empty_window (W : Z) (cs : list call) :
  W <= 0 -> run (mk W []) cs = mk W [].
Proof.
  intros HW. induction cs as [|c cs IH]; [done|].
  destruct c as [v|]; simpl; [|exact IH].
  unfold run in *; simpl. unfold push at 1; simpl.
  change (Z.of_nat 1) with 1.
  by destruct (Z.gtb_spec 1 W); [|lia].
Qed.



End MovingAverageMore.

(** X1. A window size of zero or less keeps nothing: after construction and
    any calls the queue is empty, every pushed value having been evicted at
    once, and [avg()] is [nan]. *)
Theorem moving_average_nonpositive_window (W : Z) (v0 : Q)
  (cs : list MovingAverage.call) :
  W <= 0 ->
  MovingAverage.queue (MovingAverage.run (MovingAverage.init v0 W) cs) = []
  /\ MovingAverage.avg (MovingAverage.run (MovingAverage.init v0 W) cs)
     = Ok NpNaN.
Proof.
  intros HW.
  assert (Hinit : MovingAverage.init v0 W = MovingAverage.mk W []).
  { unfold MovingAverage.init, MovingAverage.push, MovingAverage.reset; simpl.
    change (Z.of_nat 1) with 1. by destruct (Z.gtb_spec 1 W); [|lia]. }
  rewrite Hinit, (run_empty_window W cs HW). by split.
Qed.

Lemma moving_average_nonpositive_window_witness :
  MovingAverage.queue
    (MovingAverage.run (MovingAverage.init 1 0)
       [MovingAverage.Push 2; MovingAverage.Push 3]) = []
  /\ MovingAverage.avg
       (MovingAverage.run (MovingAverage.init 1 0)
          [MovingAverage.Push 2; MovingAverage.Push 3]) = Ok NpNaN.
Proof.
  apply (moving_average_nonpositive_window 0 1
           [MovingAverage.Push 2; MovingAverage.Push 3]).
  lia.
Defined.



(** X3. [reset()] forgets: whatever was pushed before it, the object then
    behaves as an empty window of the same size. *)
Theorem moving_average_reset_forgets (self : MovingAverage.t)
  (cs1 cs2 : list MovingAverage.call) :
  MovingAverage.run self (cs1 ++ MovingAverage.Reset :: cs2)
  = MovingAverage.run
      (MovingAverage.mk (MovingAverage.window_size self) []) cs2.
Proof.
  rewrite run_app. simpl. unfold MovingAverage.reset.
  by rewrite run_window_size.
Qed.

(** ** Cumulative statistic *)

Section AverageMeterMore.
Import AverageMeter.

Lemma meter_run_app (cs1 cs2 : list call) (self : t) :
  run self (cs1 ++ cs2)
  = match run self cs1 with
    | Ok self' => run self' cs2
    | Raise e => Raise e
    end.
Proof. apply for_each_app. Qed.

Lemma meter_run_total (cs : list call) (self : t) :
  exists self', run self cs = Ok self'.
Proof.
  revert self. induction cs as [|c cs IH]; intros self; [by eexists|].
  rewrite run_cons. destruct c as [v n|]; simpl.
  - rewrite update_ok. apply IH.
  - apply IH.
Qed.



End AverageMeterMore.





(** X6. [reset()] forgets: whatever updates came before it, the meter then
    behaves as one whose four fields are zero. *)
Theorem average_meter_reset_forgets (self : AverageMeter.t)
  (cs1 cs2 : list AverageMeter.call) :
  AverageMeter.run self (cs1 ++ AverageMeter.Reset :: cs2)
  = AverageMeter.run (AverageMeter.mk 0 0 0 0) cs2.
Proof.
  rewrite meter_run_app.
  destruct (meter_run_total cs1 self) as [self1 ->].
  by rewrite run_cons.
Qed.

(** ** The structured sink on the coordinator *)

Section LightningMore.
Context `{Externals}.
Import NanoDetLightningLogger.

Lemma dict_set_set {K V : Type} `{EqDecision K} (d : dict K V) (k : K)
  (v1 v2 : V) :
  dict_set (dict_set d k v1) k v2 = dict_set d k v2.
Proof.
  induction d as [|[k' v'] d IH]; simpl.
  - by rewrite decide_True.
  - destruct (decide (k' = k)) as [->|Hne]; simpl.
    + by rewrite decide_True.
    + rewrite decide_False by done. by rewrite IH.
Qed.

(** The loop of [log_metrics]: the writer is first read, and so created,
    when the first metric is written. *)
Lemma add_scalars_loop (prefix : string) (step : Z) (metrics : dict string Q) :
  forall self : t,
    foldl (fun s kv => add_scalars s (prefix +:+ kv.1) "Val" kv.2 step)
      self metrics
    = mk (_name self) (_version self) (log_dir self)
        match metrics with
        | [] => _experiment self
        | _ :: _ =>
            Some (scalars_of (_experiment self)
                  ++ map (fun kv => {| tag := prefix +:+ kv.1; phase := "Val";
                                       value := kv.2; at_step := step |})
                       metrics)
        end
        (logged self) (files self).
Proof.
  induction metrics as [|kv metrics IH]; intros self; [by destruct self|].
  simpl foldl. rewrite IH. unfold add_scalars, experiment.
  destruct self as [n v d [w|] lg fs]; simpl;
    destruct metrics; simpl; by rewrite <- ?app_assoc.
Qed.

Lemma step_grows (rank : Z) (self : t) (c : LightningCalls.call) :
  _name (LightningCalls.step rank self c) = _name self
  /\ _version (LightningCalls.step rank self c) = _version self
  /\ log_dir (LightningCalls.step rank self c) = log_dir self
  /\ logged self `prefix_of` logged (LightningCalls.step rank self c)
  /\ scalars_of (_experiment self)
     `prefix_of` scalars_of (_experiment (LightningCalls.step rank self c))
  /\ (is_Some (_experiment self) ->
      is_Some (_experiment (LightningCalls.step rank self c)))
  /\ forall p : string,
       p <> path_join (log_dir self) "train_cfg.yml" ->
       dict_get (files (LightningCalls.step rank self c)) p
       = dict_get (files self) p.
Proof.
  destruct (Z.eqb_spec rank 0) as [->|Hr].
  - destruct c as [s|s|n|p|m st pre|]; simpl;
      rewrite ?add_scalars_loop; simpl;
      (split; [done|]); (split; [done|]); (split; [done|]);
      (split; [try done; by apply prefix_app_r|]);
      (split; [try done; destruct m; try done; by apply prefix_app_r|]);
      (split; [try done; by destruct m|]);
      try done.
    intros q Hq. by apply dict_get_set_ne.
  - assert (Hskip : LightningCalls.step rank self c = self).
    { destruct c; simpl;
        unfold info, log, dump_cfg, log_hyperparams, log_metrics,
          LightningCalls.log_val_results;
        by rewrite rank_zero_only_skip. }
    rewrite Hskip. by repeat split.
Qed.

End LightningMore.


(** X8. The structured sink only ever appends: over any calls, on any rank,
    its name, version and directory stay the same, the lines logged before
    remain the first lines logged, the scalars recorded before remain the
    first scalars recorded, a writer once created stays, and no file other
    than [train_cfg.yml] of its directory is written. *)
Theorem lightning_append_only (E : Externals) (rank : Z)
  (self : NanoDetLightningLogger.t) (cs : list LightningCalls.call) :
  NanoDetLightningLogger._name (LightningCalls.run rank self cs)
  = NanoDetLightningLogger._name self
  /\ NanoDetLightningLogger._version (LightningCalls.run rank self cs)
     = NanoDetLightningLogger._version self
  /\ NanoDetLightningLogger.log_dir (LightningCalls.run rank self cs)
     = NanoDetLightningLogger.log_dir self
  /\ NanoDetLightningLogger.logged self
     `prefix_of` NanoDetLightningLogger.logged (LightningCalls.run rank self cs)
  /\ scalars_of (NanoDetLightningLogger._experiment self)
     `prefix_of` scalars_of (NanoDetLightningLogger._experiment
                               (LightningCalls.run rank self cs))
  /\ (is_Some (NanoDetLightningLogger._experiment self) ->
      is_Some (NanoDetLightningLogger._experiment
                 (LightningCalls.run rank self cs)))
  /\ forall p : string,
       p <> path_join (NanoDetLightningLogger.log_dir self) "train_cfg.yml" ->
       dict_get (NanoDetLightningLogger.files
                   (LightningCalls.run rank self cs)) p
       = dict_get (NanoDetLightningLogger.files self) p.
Proof.
  revert self. induction cs as [|c cs IH]; intros self; [by repeat split|].
  destruct (step_grows rank self c)
    as (Hn & Hv & Hd & Hl & Hs & He & Hf).
  destruct (IH (LightningCalls.step rank self c))
    as (Hn' & Hv' & Hd' & Hl' & Hs' & He' & Hf').
  change (LightningCalls.run rank self (c :: cs))
    with (LightningCalls.run rank (LightningCalls.step rank self c) cs).
  split; [congruence|]. split; [congruence|]. split; [congruence|].
  split; [by etrans|]. split; [by etrans|]. split; [by auto|].
  intros p Hp. rewrite Hf' by (by rewrite Hd). by apply Hf.
Qed.

(** X9. On the coordinator, [dump_cfg] writes the dump of its argument to
    [train_cfg.yml] in the sink's directory, replacing what that file held
    and touching nothing else: afterwards the file holds the dump, and two
    dumps in a row leave the sink as the second alone would. *)
Theorem lightning_dump_cfg_overwrites (E : Externals)
  (self : NanoDetLightningLogger.t) (c1 c2 : cfg_node) :
  dict_get (NanoDetLightningLogger.files
              (NanoDetLightningLogger.dump_cfg 0 self c2).1)
    (path_join (NanoDetLightningLogger.log_dir self) "train_cfg.yml")
  = Some (cfg_dump c2)
  /\ (NanoDetLightningLogger.dump_cfg 0
        (NanoDetLightningLogger.dump_cfg 0 self c1).1 c2).1
     = (NanoDetLightningLogger.dump_cfg 0 self c2).1
  /\ NanoDetLightningLogger.logged
       (NanoDetLightningLogger.dump_cfg 0 self c2).1
     = NanoDetLightningLogger.logged self
  /\ NanoDetLightningLogger._experiment
       (NanoDetLightningLogger.dump_cfg 0 self c2).1
     = NanoDetLightningLogger._experiment self
  /\ dict_keys (NanoDetLightningLogger.files
                  (NanoDetLightningLogger.dump_cfg 0 self c2).1)
     = if dict_in (path_join (NanoDetLightningLogger.log_dir self)
                     "train_cfg.yml")
            (NanoDetLightningLogger.files self)
       then dict_keys (NanoDetLightningLogger.files self)
       else dict_keys (NanoDetLightningLogger.files self)
            ++ [path_join (NanoDetLightningLogger.log_dir self)
                  "train_cfg.yml"].
Proof.
  unfold NanoDetLightningLogger.dump_cfg, rank_zero_only; simpl.
  split; [apply dict_get_set_eq|]. split; [by rewrite dict_set_set|].
  split; [done|]. split; [done|]. apply dict_keys_set.
Qed.

(** ** The tracking sink: file names *)

Section IdToNameMore.
Context `{Externals}.
Import NanoDetWandbLogger.

Lemma id_to_name_of_snoc (ds : list img_info) (r : img_info) :
  id_to_name_of (ds ++ [r])
  = dict_set (id_to_name_of ds) (img_id r) (file_name r).
Proof. unfold id_to_name_of. by rewrite foldl_app. Qed.

Lemma id_to_name_of_NoDup (ds : list img_info) :
  NoDup (dict_keys (id_to_name_of ds)).
Proof.
  induction ds as [|r ds IH] using rev_ind; [apply NoDup_nil_2|].
  rewrite id_to_name_of_snoc. by apply dict_set_NoDup.
Qed.

Lemma id_to_name_of_get (ds : list img_info) (k : Z) :
  dict_get (id_to_name_of ds) k = last_file_name ds k.
Proof.
  unfold last_file_name.
  induction ds as [|r ds IH] using rev_ind; [done|].
  rewrite id_to_name_of_snoc, filter_app, filter_cons, filter_nil.
  destruct (decide (img_id r = k)) as [<-|Hne].
  - by rewrite dict_get_set_eq, last_snoc.
  - by rewrite dict_get_set_ne, app_nil_r.
Qed.

End IdToNameMore.

(** X10. The table of file names built from a dataset maps each image id
    to the file name of the last record carrying that id, and knows no
    other id; each id is a key once, however often the dataset repeats
    it. *)
Theorem id_to_name_last_wins (E : Externals) (ds : list img_info) (k : Z) :
  dict_get (NanoDetWandbLogger.id_to_name_of ds) k = last_file_name ds k
  /\ (k ∈ dict_keys (NanoDetWandbLogger.id_to_name_of ds)
      <-> exists r, r ∈ ds /\ img_id r = k)
  /\ NoDup (dict_keys (NanoDetWandbLogger.id_to_name_of ds)).
Proof.
  split; [apply id_to_name_of_get|]. split; [|apply id_to_name_of_NoDup].
  rewrite <- dict_get_is_Some, id_to_name_of_get. unfold last_file_name.
  rewrite fmap_is_Some. split.
  - intros [r Hr]. exists r. apply last_Some_elem_of in Hr.
    by apply list_elem_of_filter in Hr as [? ?].
  - intros (r & Hin & Hk).
    destruct (filter (fun r => img_id r = k) ds) as [|x l] eqn:Hf.
    + assert (Hr : r ∈ filter (fun r => img_id r = k) ds)
        by (by apply list_elem_of_filter).
      rewrite Hf in Hr. by apply elem_of_nil in Hr.
    + apply last_is_Some. done.
Qed.

(** ** The row of one sample: every class id *)

Section IndexFacts.
Context {A : Type}.
Implicit Types (l : list A) (i : Z).

Lemma norm_index_in_range (len : nat) i :
  in_range len i ->
  exists n, norm_index (Z.of_nat len) i = Some n /\ (n < len)%nat.
Proof.
  unfold in_range, norm_index. intros Hi.
  destruct (Z.leb_spec 0 i), (Z.ltb_spec i (Z.of_nat len)); simpl;
    try (eexists; split; [done | lia]); try lia.
  destruct (Z.leb_spec (- Z.of_nat len) i), (Z.ltb_spec i 0); simpl;
    try (eexists; split; [done | lia]); lia.
Qed.

Lemma norm_index_out_of_range (len : nat) i :
  ~ in_range len i -> norm_index (Z.of_nat len) i = None.
Proof.
  unfold in_range, norm_index. intros Hi.
  destruct (Z.leb_spec 0 i), (Z.ltb_spec i (Z.of_nat len)); simpl; try lia;
    destruct (Z.leb_spec (- Z.of_nat len) i), (Z.ltb_spec i 0); simpl;
    (done || lia).
Qed.

Lemma getitem_in_range l i :
  in_range (length l) i -> exists a, getitem l i = Ok a.
Proof.
  intros (n & Hn & Hlt)%norm_index_in_range. unfold getitem. rewrite Hn.
  destruct (lookup_lt_is_Some_2 l n Hlt) as [a ->]. by exists a.
Qed.

Lemma getitem_out_of_range l i :
  ~ in_range (length l) i -> getitem l i = Raise IndexError.
Proof.
  intros Hi%norm_index_out_of_range. unfold getitem. by rewrite Hi.
Qed.

Lemma getitem_raises l i (e : exn) : getitem l i = Raise e -> e = IndexError.
Proof.
  unfold getitem. destruct (norm_index _ _) as [n|]; [|by intros [= <-]].
  destruct (l !! n); [done | by intros [= <-]].
Qed.

Lemma setitem_in_range l i (a : A) :
  in_range (length l) i ->
  exists l', setitem l i a = Ok l' /\ length l' = length l.
Proof.
  intros (n & Hn & Hlt)%norm_index_in_range. unfold setitem. rewrite Hn.
  eexists; split; [done|]. apply length_insert.
Qed.

Lemma setitem_raises l i (a : A) (e : exn) :
  setitem l i a = Raise e -> e = IndexError.
Proof.
  unfold setitem. destruct (norm_index _ _); [done | by intros [= <-]].
Qed.

(** A non-negative index that [getitem] accepts is a position of the
    list. *)
Lemma getitem_nonneg l i (a : A) :
  0 <= i -> getitem l i = Ok a -> l !! Z.to_nat i = Some a.
Proof.
  intros Hi. unfold getitem, norm_index.
  destruct (Z.leb_spec 0 i); [|lia].
  destruct (Z.ltb_spec i (Z.of_nat (length l))); simpl.
  - destruct (l !! Z.to_nat i); [by intros [= ->] | done].
  - destruct (Z.ltb_spec i 0); [lia|]. by rewrite andb_false_r.
Qed.

End IndexFacts.

Lemma dict_get_enumerate {A : Type} (l : list A) (i : nat) :
  dict_get (enumerate l) (Z.of_nat i) = l !! i.
Proof.
  unfold enumerate.
  assert (Hgen : forall (k : nat) (l : list A) (i : nat),
             dict_get (imap (fun j a => (Z.of_nat (k + j), a)) l)
               (Z.of_nat (k + i)) = l !! i).
  { intros k l'. revert k. induction l' as [|a l' IH]; intros k j; [done|].
    simpl. destruct j as [|j].
    - by rewrite decide_True.
    - rewrite decide_False by lia.
      change ((a :: l') !! S j) with (l' !! j).
      rewrite <- (IH (S k) j).
      replace (Z.of_nat (k + S j)) with (Z.of_nat (S k + j)) by lia.
      f_equal. apply imap_ext. intros j' x _. simpl. f_equal. lia. }
  apply (Hgen 0%nat).
Qed.

Section SampleMore.
Context `{Externals}.
Import NanoDetWandbLogger.

Lemma qualifying_cons (cd : Z * detection) (ds : list (Z * detection)) :
  qualifying (cd :: ds)
  = if qualifies cd.2 then cd :: qualifying ds else qualifying ds.
Proof.
  unfold qualifying. rewrite filter_cons.
  destruct (qualifies cd.2); case_decide; naive_solver.
Qed.

Lemma counted_init (classes : list string) :
  counted classes
    {| acc_box_data := [];
       avg_conf_per_class := replicate (length classes) 0%Q;
       pred_class_count := [] |}.
Proof. split; [apply length_replicate | done]. Qed.

Lemma visit_skips (classes : list string) (cls : Z) (a : sample_acc)
  (d : detection) :
  qualifies d = false -> visit classes cls a d = Ok a.
Proof. unfold visit, qualifies. by intros ->. Qed.

Lemma visit_in_range (classes : list string) (cls : Z) (a : sample_acc)
  (d : detection) :
  counted classes a ->
  qualifies d = true ->
  in_range (length classes) cls ->
  exists name a',
    getitem classes cls = Ok name
    /\ visit classes cls a d = Ok a'
    /\ counted classes a'
    /\ acc_box_data a' = acc_box_data a ++ [box_of name (cls, d)].
Proof.
  intros [Hlen Hcount] Hq Hcls. unfold visit. unfold qualifies in Hq.
  rewrite Hq.
  destruct (getitem_in_range classes cls Hcls) as [name Hname].
  rewrite <- Hlen in Hcls.
  destruct (getitem_in_range (avg_conf_per_class a) cls Hcls) as [old Hold].
  destruct (setitem_in_range (avg_conf_per_class a) cls (old + conf d)%Q Hcls)
    as (avg' & Hset & Hlen').
  rewrite Hname, Hold; simpl. rewrite Hset; simpl.
  unfold dict_in, dict_getitem.
  exists name.
  destruct (dict_get (pred_class_count a) cls) as [n|] eqn:Hn; simpl;
    (eexists; split; [done|]; split; [done|]; split; [|done]);
    (split; [simpl; congruence|]); simpl; intros k m;
    (destruct (decide (cls = k)) as [<-|Hne];
     [rewrite dict_get_set_eq | rewrite dict_get_set_ne by done; apply Hcount]);
    intros [= <-]; (split; [by rewrite Hlen in Hcls|]); try lia.
  destruct (Hcount _ _ Hn). lia.
Qed.

Lemma visit_out_of_range (classes : list string) (cls : Z) (a : sample_acc)
  (d : detection) :
  qualifies d = true ->
  ~ in_range (length classes) cls ->
  visit classes cls a d = Raise IndexError.
Proof.
  intros Hq Hcls. unfold visit. unfold qualifies in Hq. rewrite Hq.
  by rewrite (getitem_out_of_range classes cls Hcls).
Qed.

(** The first loop over the detections [ds]: it returns when every
    qualifying detection has a class id in range, having drawn one box per
    qualifying detection, and raises [IndexError] otherwise. *)
Lemma visit_loop (classes : list string) (ds : list (Z * detection)) :
  forall a : sample_acc,
    counted classes a ->
    (Forall (fun cd => in_range (length classes) cd.1) (qualifying ds) ->
     exists a' new,
       for_each (fun a cd => visit classes cd.1 a cd.2) ds a = Ok a'
       /\ counted classes a'
       /\ acc_box_data a' = acc_box_data a ++ new
       /\ Forall2 (fun b cd => exists name,
                     getitem classes cd.1 = Ok name /\ b = box_of name cd)
            new (qualifying ds))
    /\ (Exists (fun cd => ~ in_range (length classes) cd.1) (qualifying ds) ->
        for_each (fun a cd => visit classes cd.1 a cd.2) ds a
        = Raise IndexError).
Proof.
  induction ds as [|[cls d] ds IH]; intros a Ha.
  - split.
    + intros _. exists a, []. by rewrite app_nil_r.
    + by intros ?%Exists_nil.
  - rewrite qualifying_cons, for_each_cons; simpl.
    destruct (qualifies d) eqn:Hq.
    + destruct (decide (in_range (length classes) cls)) as [Hcls|Hcls].
      * destruct (visit_in_range classes cls a d Ha Hq Hcls)
          as (name & a1 & Hname & -> & Ha1 & Hbox).
        destruct (IH a1 Ha1) as [IHok IHraise]. split.
        -- intros [_ Hrest]%Forall_cons.
           destruct (IHok Hrest) as (a' & new & Hloop & Ha' & Hnew & Hall).
           exists a', (box_of name (cls, d) :: new).
           split; [done|]. split; [done|].
           split; [by rewrite Hnew, Hbox, <- app_assoc|].
           constructor; [by exists name | done].
        -- intros [Hbad|Hbad]%Exists_cons; [done | by apply IHraise].
      * rewrite (visit_out_of_range classes cls a d Hq Hcls). split; [|done].
        by intros [? _]%Forall_cons.
    + rewrite (visit_skips classes cls a d Hq). apply (IH a Ha).
Qed.

(** The second loop, over any classes counted. *)
Lemma average_loop_in_range (counts : dict Z Z) (ks : list Z) :
  forall avg : list Q,
    (forall k, k ∈ ks ->
               in_range (length avg) k
               /\ exists n, dict_get counts k = Some n /\ n <> 0) ->
    exists avg',
      for_each (average counts) ks avg = Ok avg'
      /\ length avg' = length avg.
Proof.
  induction ks as [|k ks IH]; intros avg Hks; [by exists avg|].
  destruct (Hks k (list_elem_of_here _ _)) as (Hk & n & Hn & Hn0).
  destruct (getitem_in_range avg k Hk) as [s Hs].
  destruct (setitem_in_range avg k (s / inject_Z n)%Q Hk)
    as (avg1 & Hset & Hlen1).
  destruct (IH avg1) as (avg' & Hloop & Hlen').
  { intros k' Hk'. rewrite Hlen1. apply Hks. by apply list_elem_of_further. }
  exists avg'. rewrite for_each_cons.
  unfold average at 1, dict_getitem, truediv. rewrite Hs; simpl.
  rewrite Hn; simpl. destruct (Z.eqb_spec n 0); [done|]; simpl.
  rewrite Hset. split; [done | congruence].
Qed.

Lemma counted_average_loop (classes : list string) (a : sample_acc) :
  counted classes a ->
  exists avg',
    for_each (average (pred_class_count a)) (dict_keys (pred_class_count a))
      (avg_conf_per_class a) = Ok avg'
    /\ length avg' = length classes.
Proof.
  intros [Hlen Hcount].
  destruct (average_loop_in_range (pred_class_count a)
              (dict_keys (pred_class_count a)) (avg_conf_per_class a))
    as (avg' & Hloop & Hlen').
  { intros k [n Hn]%dict_get_is_Some. destruct (Hcount k n Hn).
    split; [by rewrite Hlen|]. exists n. split; [done | lia]. }
  exists avg'. split; [done | congruence].
Qed.

End SampleMore.

Section SampleReturns.
Context `{Externals}.
Import NanoDetWandbLogger.

Lemma visit_loop_none (classes : list string) (ds : list (Z * detection))
  (a : sample_acc) :
  qualifying ds = [] ->
  for_each (fun a cd => visit classes cd.1 a cd.2) ds a = Ok a.
Proof.
  induction ds as [|[cls d] ds IH]; [done|].
  rewrite qualifying_cons, for_each_cons; simpl.
  destruct (qualifies d) eqn:Hq; [done|].
  rewrite (visit_skips classes cls a d Hq). apply IH.
Qed.

(** [sample_loops] on a dictionary, by cases on the class ids of its
    qualifying detections. *)
Lemma sample_loops_cases (preds : predictions) (classes : list string) :
  NoDup (dict_keys preds) ->
  (Forall (fun cd => in_range (length classes) cd.1)
     (qualifying (detections_of preds)) ->
   exists a,
     sample_loops preds classes = Ok a
     /\ length (avg_conf_per_class a) = length classes
     /\ Forall2 (fun b cd => exists name,
                   getitem classes cd.1 = Ok name /\ b = box_of name cd)
          (acc_box_data a) (qualifying (detections_of preds)))
  /\ (Exists (fun cd => ~ in_range (length classes) cd.1)
        (qualifying (detections_of preds)) ->
      sample_loops preds classes = Raise IndexError).
Proof.
  intros Hnd. unfold sample_loops.
  rewrite (visit_class_flat classes preds _ Hnd).
  destruct (visit_loop classes (detections_of preds) _ (counted_init classes))
    as [Hok Hraise].
  split.
  - intros Hall. destruct (Hok Hall) as (a & new & -> & Ha & Hnew & Hboxes).
    simpl in Hnew. subst new.
    destruct (counted_average_loop classes a Ha) as (avg' & Hloop & Hlen).
    simpl. rewrite Hloop. simpl. by eexists.
  - intros Hbad. by rewrite (Hraise Hbad).
Qed.

End SampleReturns.

(** X11. Each box of a returned row is the box of one qualifying detection,
    in order: its corners and score are the detection's, its class id the
    key the detection was listed under, its caption [name conf] with the
    class name that id selects and the confidence to three decimals, its
    domain ["pixel"]. For a class id from zero up, that name is also the
    label [class_labels] gives the box's class id. *)
Theorem eval_sample_boxes (E : Externals) (sample_id : Z)
  (sample_path : string) (preds : predictions) (classes : list string)
  (row : list cell) :
  NoDup (dict_keys preds) ->
  NanoDetWandbLogger._log_eval_sample sample_id sample_path preds classes
  = Ok row ->
  exists (boxes : list box) (avgs : list Q),
    row = CId sample_id
          :: CImage {| image_path := sample_path;
                       box_data := boxes;
                       class_labels := enumerate classes;
                       image_classes := enumerate classes |}
          :: map CNum avgs
    /\ Forall2 (fun b cd =>
                  exists name : string,
                    getitem classes cd.1 = Ok name
                    /\ b = box_of name cd
                    /\ (0 <= cd.1 ->
                        dict_get (enumerate classes) cd.1 = Some name))
         boxes (qualifying (detections_of preds)).
Proof.
  intros Hnd. unfold NanoDetWandbLogger._log_eval_sample.
  destruct (sample_loops_cases preds classes Hnd) as [Hok Hraise].
  destruct (decide (Forall (fun cd => in_range (length classes) cd.1)
                      (qualifying (detections_of preds)))) as [Hall|Hbad].
  - destruct (Hok Hall) as (a & -> & _ & Hboxes). simpl. intros [= <-].
    exists (acc_box_data a), (avg_conf_per_class a). split; [done|].
    eapply Forall2_impl; [exact Hboxes|].
    intros b cd (name & Hname & ->). exists name.
    split; [done|]. split; [done|]. intros Hnonneg.
    rewrite <- (Z2Nat.id cd.1) at 1 by done. rewrite dict_get_enumerate.
    by apply getitem_nonneg.
  - apply not_Forall_Exists in Hbad; [|apply _].
    rewrite (Hraise Hbad). done.
Qed.

Lemma eval_sample_boxes_witness :
  exists (boxes : list box) (avgs : list Q),
    [CId 1;
     CImage {| image_path := "val/a.jpg";
               box_data :=
                 [box_of (H := demo_externals) "cat"
                    (0, {| x1 := 0; y1 := 0; x2 := 10; y2 := 10;
                           conf := 9 # 10 |})];
               class_labels := [(0, "cat"); (1, "dog")];
               image_classes := [(0, "cat"); (1, "dog")] |};
     CNum (9 # 10); CNum 0]
    = CId 1
      :: CImage {| image_path := "val/a.jpg";
                   box_data := boxes;
                   class_labels := [(0, "cat"); (1, "dog")];
                   image_classes := [(0, "cat"); (1, "dog")] |}
      :: map CNum avgs
    /\ length boxes = 1%nat.
Proof.
  destruct (eval_sample_boxes demo_externals 1 "val/a.jpg" example_preds
              ["cat"; "dog"] _ ltac:(apply (bool_decide_unpack _); reflexivity)
              eq_refl)
    as (boxes & avgs & Hrow & Hall).
  exists boxes, avgs. split; [exact Hrow|].
  by apply Forall2_length in Hall.
Defined.

(** X12. [_log_eval_sample] returns a row exactly when the class id of
    every detection of confidence at least 0.25 is an index Python accepts
    for the class names, [-len(classes) <= id < len(classes)]; when one is
    not, it raises [IndexError]. Detections below the threshold are never
    looked at, whatever their class id. *)
Theorem eval_sample_index_error (E : Externals) (sample_id : Z)
  (sample_path : string) (preds : predictions) (classes : list string) :
  NoDup (dict_keys preds) ->
  (Forall (fun cd => in_range (length classes) cd.1)
     (qualifying (detections_of preds)) ->
   exists row : list cell,
     NanoDetWandbLogger._log_eval_sample sample_id sample_path preds classes
     = Ok row)
  /\ (Exists (fun cd => ~ in_range (length classes) cd.1)
        (qualifying (detections_of preds)) ->
      NanoDetWandbLogger._log_eval_sample sample_id sample_path preds classes
      = Raise IndexError).
Proof.
  intros Hnd. unfold NanoDetWandbLogger._log_eval_sample.
  destruct (sample_loops_cases preds classes Hnd) as [Hok Hraise].
  split.
  - intros Hall. destruct (Hok Hall) as (a & -> & _). by eexists.
  - intros Hbad. by rewrite (Hraise Hbad).
Qed.

Lemma eval_sample_index_error_witness :
  NanoDetWandbLogger._log_eval_sample (H := demo_externals) 1 "val/a.jpg"
    [(2, [{| x1 := 0; y1 := 0; x2 := 1; y2 := 1; conf := 9 # 10 |}]);
     (0, [{| x1 := 0; y1 := 0; x2 := 1; y2 := 1; conf := 1 # 2 |}])]
    ["cat"; "dog"]
  = Raise IndexError
  /\ exists row : list cell,
       NanoDetWandbLogger._log_eval_sample (H := demo_externals) 1
         "val/a.jpg"
         [(2, [{| x1 := 0; y1 := 0; x2 := 1; y2 := 1; conf := 1 # 10 |}]);
          (-2, [{| x1 := 0; y1 := 0; x2 := 1; y2 := 1; conf := 1 # 2 |}])]
         ["cat"; "dog"]
       = Ok row.
Proof.
  split.
  - apply (eval_sample_index_error demo_externals 1 "val/a.jpg"
             [(2, [{| x1 := 0; y1 := 0; x2 := 1; y2 := 1; conf := 9 # 10 |}]);
              (0, [{| x1 := 0; y1 := 0; x2 := 1; y2 := 1; conf := 1 # 2 |}])]
             ["cat"; "dog"]).
    + apply (bool_decide_unpack _). reflexivity.
    + apply Exists_cons_hd. unfold in_range. simpl. lia.
  - apply (eval_sample_index_error demo_externals 1 "val/a.jpg"
             [(2, [{| x1 := 0; y1 := 0; x2 := 1; y2 := 1; conf := 1 # 10 |}]);
              (-2, [{| x1 := 0; y1 := 0; x2 := 1; y2 := 1; conf := 1 # 2 |}])]
             ["cat"; "dog"]).
    + apply (bool_decide_unpack _). reflexivity.
    + repeat constructor; unfold in_range; simpl; lia.
Defined.

(** X13. When no detection reaches the threshold, and so also for an empty
    prediction mapping, [_log_eval_sample] returns the row with no box and
    the average [0] for every class, whatever the class ids are. *)
Theorem eval_sample_nothing_qualifies (E : Externals) (sample_id : Z)
  (sample_path : string) (preds : predictions) (classes : list string) :
  NoDup (dict_keys preds) ->
  qualifying (detections_of preds) = [] ->
  NanoDetWandbLogger._log_eval_sample sample_id sample_path preds classes
  = Ok (CId sample_id
        :: CImage {| image_path := sample_path;
                     box_data := [];
                     class_labels := enumerate classes;
                     image_classes := enumerate classes |}
        :: map CNum (replicate (length classes) 0%Q)).
Proof.
  intros Hnd Hnone.
  unfold NanoDetWandbLogger._log_eval_sample, NanoDetWandbLogger.sample_loops.
  rewrite (visit_class_flat classes preds _ Hnd).
  by rewrite (visit_loop_none classes _ _ Hnone).
Qed.

Lemma eval_sample_nothing_qualifies_witness :
  NanoDetWandbLogger._log_eval_sample (H := demo_externals) 3 "val/c.jpg"
    [(7, [{| x1 := 0; y1 := 0; x2 := 1; y2 := 1; conf := 1 # 5 |}])]
    ["cat"; "dog"]
  = Ok [CId 3;
        CImage {| image_path := "val/c.jpg";
                  box_data := [];
                  class_labels := [(0, "cat"); (1, "dog")];
                  image_classes := [(0, "cat"); (1, "dog")] |};
        CNum 0; CNum 0].
Proof.
  apply (eval_sample_nothing_qualifies demo_externals 3 "val/c.jpg"
           [(7, [{| x1 := 0; y1 := 0; x2 := 1; y2 := 1; conf := 1 # 5 |}])]
           ["cat"; "dog"]).
  - apply (bool_decide_unpack _). reflexivity.
  - reflexivity.
Defined.

(** ** The evaluation table: errors and repetition *)



Section TableErrors.
Context `{Externals}.
Import NanoDetWandbLogger.



Lemma average_raises (counts : dict Z Z) (avg : list Q) (k : Z) (e : exn) :
  (forall n, dict_get counts k = Some n -> n <> 0) ->
  k ∈ dict_keys counts ->
  average counts avg k = Raise e -> e = IndexError.
Proof.
  intros Hn0 [n Hn]%dict_get_is_Some. unfold average, dict_getitem, truediv.
  destruct (getitem avg k) eqn:Hg; simpl;
    [|intros [= <-]; by eapply getitem_raises].
  rewrite Hn; simpl.
  destruct (Z.eqb_spec n 0) as [->|_]; [by destruct (Hn0 0 Hn)|]. simpl.
  intros Hs. by eapply setitem_raises.
Qed.



(** With the cache set, an id it does not know ends the loop with
    [KeyError]. *)
Lemma eval_rows_unknown_id (self : t) (results : dict Z predictions)
  (cfg : config) (d : dict Z string) (ks : list Z) :
  valid_results results (class_names cfg) ->
  _id_to_name self = Some d ->
  Forall (fun k => k ∈ dict_keys results) ks ->
  Exists (fun k => dict_get d k = None) ks ->
  forall rows0 : list (list cell),
    for_each (eval_row self results cfg) ks rows0 = Raise KeyError.
Proof.
  intros Hvalid Hd Hin. induction Hin as [|k ks Hk _ IH]; intros Hbad rows0.
  - by apply Exists_nil in Hbad.
  - rewrite for_each_cons.
    destruct (dict_get d k) as [name|] eqn:Hname.
    + destruct (eval_row_ok self results cfg rows0 k Hvalid Hk)
        as (row & -> & _); [by exists d, name|].
      apply IH. by apply Exists_cons in Hbad as [Hbad|Hbad]; [congruence|].
    + apply dict_get_is_Some in Hk as [p Hp].
      unfold eval_row, dict_getitem. by rewrite Hp, Hd; simpl; rewrite Hname.
Qed.

Lemma selected_cons_max_len (self : t) (results : dict Z predictions) :
  0 <= _num_eval_samples self ->
  selected self results <> [] ->
  0 < max_len self results.
Proof.
  intros Hn Hsel. pose proof (selected_length self results Hn) as Hlen.
  destruct (selected self results); [done | simpl in Hlen; lia].
Qed.

(** Rows are made of the predictions and the cached file name of their
    sample. *)
Lemma eval_rows_of_samples (self : t) (results : dict Z predictions)
  (cfg : config) (ks : list Z) :
  forall rows0 rows : list (list cell),
    for_each (eval_row self results cfg) ks rows0 = Ok rows ->
    exists new, rows = rows0 ++ new
                /\ Forall2 (row_of_sample self results cfg) new ks.
Proof.
  induction ks as [|k ks IH]; intros rows0 rows.
  - intros [= <-]. exists []. by rewrite app_nil_r.
  - rewrite for_each_cons.
    destruct (eval_row self results cfg rows0 k) as [rows1|] eqn:Hrow;
      [|done].
    intros (new & -> & Hall)%IH.
    unfold eval_row, dict_getitem in Hrow.
    destruct (dict_get results k) as [p|] eqn:Hp; simpl in Hrow; [|done].
    destruct (_id_to_name self) as [d|] eqn:Hd; simpl in Hrow; [|done].
    destruct (dict_get d k) as [name|] eqn:Hname; simpl in Hrow; [|done].
    destruct (_log_eval_sample k _ p (class_names cfg)) as [row|] eqn:Hs;
      simpl in Hrow; [|done].
    injection Hrow as <-.
    exists (row :: new). split; [by rewrite <- app_assoc|].
    constructor; [|done]. by exists p, d, name.
Qed.

Lemma eval_table_rows_ext (self self' : t) (results : dict Z predictions)
  (cfg : config) :
  _id_to_name self = _id_to_name self' ->
  _num_eval_samples self = _num_eval_samples self' ->
  eval_table_rows self results cfg = eval_table_rows self' results cfg.
Proof.
  intros Hc Hn. unfold eval_table_rows, selected, max_len, eval_row.
  by rewrite Hc, Hn.
Qed.

End TableErrors.

Section TableSteps.
Context `{Externals}.
Import NanoDetWandbLogger.

Lemma body_num (self : t) (results : dict Z predictions) (cfg : config) :
  _num_eval_samples (_log_eval_table_body results cfg self).1
  = _num_eval_samples self.
Proof.
  unfold _log_eval_table_body.
  destruct (eval_table_rows _ _ _) as [[|row rows]|e]; simpl;
    apply ensure_num.
Qed.


Lemma ensure_is_Some (self : t) (results : dict Z predictions) (cfg : config) :
  0 < max_len self results ->
  is_Some (_id_to_name (ensure_id_to_name self results cfg)).
Proof.
  intros Hpos. destruct (_id_to_name self) as [d|] eqn:Hd.
  - rewrite ensure_skip by (right; by eexists). by eexists.
  - rewrite ensure_build by done. by eexists.
Qed.

Lemma step_skip (rank : Z) (self : t) (c : call) :
  rank <> 0 -> step rank self c = self.
Proof.
  intros Hr. destruct c; simpl;
    unfold info, log_metrics, log_val_results, dump_cfg, _log_eval_table;
    by rewrite rank_zero_only_skip.
Qed.



End TableSteps.

(** X14. With a non-negative cap and well-formed predictions, a selected
    sample id that the cache of file names does not know makes
    [_log_eval_table] raise [KeyError]: no table is submitted, and the
    cache, built by then, stays built. *)
Theorem eval_table_unknown_id (E : Externals) (self : NanoDetWandbLogger.t)
  (results : dict Z predictions) (cfg : NanoDetWandbLogger.config) :
  0 <= NanoDetWandbLogger._num_eval_samples self ->
  valid_results results (NanoDetWandbLogger.class_names cfg) ->
  Exists (fun k => ~ resolves (NanoDetWandbLogger._id_to_name
                                 (NanoDetWandbLogger.ensure_id_to_name self
                                    results cfg)) k)
    (NanoDetWandbLogger.selected self results) ->
  NanoDetWandbLogger._log_eval_table_body results cfg self
  = (NanoDetWandbLogger.ensure_id_to_name self results cfg, Raise KeyError)
  /\ is_Some (NanoDetWandbLogger._id_to_name
                (NanoDetWandbLogger.ensure_id_to_name self results cfg))
  /\ filter NanoDetWandbLogger.is_table
       (events_since self
          (NanoDetWandbLogger._log_eval_table_body results cfg self).1)
     = [].
Proof.
  intros Hnum Hvalid Hbad.
  assert (Hpos : 0 < NanoDetWandbLogger.max_len self results).
  { apply selected_cons_max_len; [done|]. intros Hnil.
    rewrite Hnil in Hbad. by apply Exists_nil in Hbad. }
  destruct (ensure_is_Some self results cfg Hpos) as [d Hd].
  assert (Hrows : NanoDetWandbLogger.eval_table_rows
                    (NanoDetWandbLogger.ensure_id_to_name self results cfg)
                    results cfg = Raise KeyError).
  { unfold NanoDetWandbLogger.eval_table_rows. rewrite ensure_selected.
    apply (eval_rows_unknown_id _ results cfg d); [done | done | |].
    - apply Forall_forall. intros k Hk. by eapply selected_subseteq.
    - eapply Exists_impl; [exact Hbad|]. intros k Hk. simpl in Hk.
      destruct (dict_get d k) as [name|] eqn:Hname; [|done].
      destruct Hk. by exists d, name. }
  split; [|split; [by eexists|]].
  - unfold NanoDetWandbLogger._log_eval_table_body. by rewrite Hrows.
  - rewrite body_events, Hrows, filter_app. by destruct (_ && _).
Qed.

Lemma eval_table_unknown_id_witness :
  NanoDetWandbLogger._log_eval_table_body (H := demo_externals)
    twenty_results
    (demo_cfg [{| img_id := 0; file_name := "a.jpg" |}] ["cat"; "dog"])
    (NanoDetWandbLogger.init 16)
  = (NanoDetWandbLogger.mk 16 (Some [(0, "a.jpg")]) None
       [NanoDetWandbLogger.BuildDataset
          (("val", [{| img_id := 0; file_name := "a.jpg" |}])
           : @val_cfg demo_externals) "test"],
     Raise KeyError).
Proof.
  apply (eval_table_unknown_id demo_externals (NanoDetWandbLogger.init 16)
           twenty_results
           (demo_cfg [{| img_id := 0; file_name := "a.jpg" |}]
              ["cat"; "dog"])).
  - simpl. lia.
  - apply Forall_forall. intros [k p] Hin.
    apply list_elem_of_fmap in Hin as [i [[= -> ->] _]]. simpl.
    split; [apply (bool_decide_unpack _); reflexivity |].
    unfold valid_classes; simpl. repeat constructor; lia.
  - apply Exists_cons_tl, Exists_cons_hd.
    intros (d & name & [= <-] & Hname). discriminate Hname.
Defined.




(** X17. On a process whose rank is not 0, no call changes either sink:
    after any calls, [log_val_results], [info] and [_log_eval_table]
    included, the sink is as it was. *)
Theorem non_coordinator_inert (E : Externals) (rank : Z)
  (wandb : NanoDetWandbLogger.t) (cs : list NanoDetWandbLogger.call)
  (lightning : NanoDetLightningLogger.t) (cs' : list LightningCalls.call) :
  rank <> 0 ->
  NanoDetWandbLogger.run rank wandb cs = wandb
  /\ LightningCalls.run rank lightning cs' = lightning.
Proof.
  intros Hr. split.
  - induction cs as [|c cs IH]; [done|].
    unfold NanoDetWandbLogger.run in *; simpl. by rewrite step_skip.
  - induction cs' as [|c cs' IH]; [done|].
    unfold LightningCalls.run in *; simpl.
    replace (LightningCalls.step rank lightning c) with lightning; [done|].
    destruct c; simpl;
      unfold NanoDetLightningLogger.info, NanoDetLightningLogger.log,
        NanoDetLightningLogger.dump_cfg,
        NanoDetLightningLogger.log_hyperparams,
        NanoDetLightningLogger.log_metrics, LightningCalls.log_val_results;
      by rewrite rank_zero_only_skip.
Qed.

Lemma non_coordinator_inert_witness :
  NanoDetWandbLogger.run (H := demo_externals) 2
    (NanoDetWandbLogger.init 16)
    [NanoDetWandbLogger.LogValResults faint_results
       (demo_cfg [{| img_id := 1; file_name := "a.jpg" |}] ["cat"]);
     NanoDetWandbLogger.LogMetrics [("mAP", 1 # 2)] 3 "Val"]
  = NanoDetWandbLogger.init 16.
Proof.
  apply (non_coordinator_inert demo_externals 2 (NanoDetWandbLogger.init 16)
           [NanoDetWandbLogger.LogValResults faint_results
              (demo_cfg [{| img_id := 1; file_name := "a.jpg" |}] ["cat"]);
            NanoDetWandbLogger.LogMetrics [("mAP", 1 # 2)] 3 "Val"]
           (NanoDetLightningLogger.mk "NanoDet" "v" "logs-v" None [] []) []).
  lia.
Defined.

Lemma body_tables `{Externals} (self : NanoDetWandbLogger.t)
  (results : dict Z predictions) (cfg : NanoDetWandbLogger.config) :
  filter NanoDetWandbLogger.is_table
    (events_since self
       (NanoDetWandbLogger._log_eval_table_body results cfg self).1)
  = match NanoDetWandbLogger.eval_table_rows
            (NanoDetWandbLogger.ensure_id_to_name self results cfg)
            results cfg
    with
    | Ok (row :: rows) =>
        [NanoDetWandbLogger.LogTable "eval_samples"
           ("id" :: "prediction" :: NanoDetWandbLogger.class_names cfg)
           (row :: rows)]
    | _ => []
    end.
Proof.
  rewrite body_events, filter_app.
  destruct (_ && _);
    by destruct (NanoDetWandbLogger.eval_table_rows _ _ _)
      as [[|row rows]|e].
Qed.

(** X18. Running [_log_eval_table] again on the same results and
    configuration produces the same rows and the same outcome as the first
    run, submits the same table, and does not call the dataset provider: the
    second run works from the cache the first one left. *)
Theorem eval_table_repeat (E : Externals) (self : NanoDetWandbLogger.t)
  (results : dict Z predictions) (cfg : NanoDetWandbLogger.config) :
  NanoDetWandbLogger.eval_table_rows
    (NanoDetWandbLogger.ensure_id_to_name
       (NanoDetWandbLogger._log_eval_table_body results cfg self).1
       results cfg)
    results cfg
  = NanoDetWandbLogger.eval_table_rows
      (NanoDetWandbLogger.ensure_id_to_name self results cfg) results cfg
  /\ (NanoDetWandbLogger._log_eval_table_body results cfg
        (NanoDetWandbLogger._log_eval_table_body results cfg self).1).2
     = (NanoDetWandbLogger._log_eval_table_body results cfg self).2
  /\ filter NanoDetWandbLogger.is_table
       (events_since
          (NanoDetWandbLogger._log_eval_table_body results cfg self).1
          (NanoDetWandbLogger._log_eval_table_body results cfg
             (NanoDetWandbLogger._log_eval_table_body results cfg self).1).1)
     = filter NanoDetWandbLogger.is_table
         (events_since self
            (NanoDetWandbLogger._log_eval_table_body results cfg self).1)
  /\ filter NanoDetWandbLogger.is_build
       (events_since
          (NanoDetWandbLogger._log_eval_table_body results cfg self).1
          (NanoDetWandbLogger._log_eval_table_body results cfg
             (NanoDetWandbLogger._log_eval_table_body results cfg self).1).1)
     = [].
Proof.
  set (s1 := (NanoDetWandbLogger._log_eval_table_body results cfg self).1).
  assert (Hnum : NanoDetWandbLogger._num_eval_samples s1
                 = NanoDetWandbLogger._num_eval_samples self)
    by apply body_num.
  assert (Hcache : NanoDetWandbLogger._id_to_name s1
                   = NanoDetWandbLogger._id_to_name
                       (NanoDetWandbLogger.ensure_id_to_name self results cfg))
    by apply body_id_to_name.
  assert (Hmax : NanoDetWandbLogger.max_len s1 results
                 = NanoDetWandbLogger.max_len self results).
  { unfold NanoDetWandbLogger.max_len. by rewrite Hnum. }
  assert (Hskip : NanoDetWandbLogger.ensure_id_to_name s1 results cfg = s1).
  { apply ensure_skip.
    destruct (decide (0 < NanoDetWandbLogger.max_len self results))
      as [Hpos|Hle]; [right | left; lia].
    rewrite Hcache. by apply ensure_is_Some. }
  assert (Hrows : NanoDetWandbLogger.eval_table_rows
                    (NanoDetWandbLogger.ensure_id_to_name s1 results cfg)
                    results cfg
                  = NanoDetWandbLogger.eval_table_rows
                      (NanoDetWandbLogger.ensure_id_to_name self results cfg)
                      results cfg).
  { rewrite Hskip. apply eval_table_rows_ext; [done|].
    by rewrite ensure_num. }
  split; [exact Hrows|]. split; [|split].
  - unfold NanoDetWandbLogger._log_eval_table_body. rewrite Hrows.
    by destruct (NanoDetWandbLogger.eval_table_rows
                   (NanoDetWandbLogger.ensure_id_to_name self results cfg)
                   results cfg) as [[|row rows]|e].
  - rewrite (body_tables s1), Hrows. unfold s1. by rewrite body_tables.
  - rewrite ensure_builds, Hmax.
    destruct (Z.gtb_spec (NanoDetWandbLogger.max_len self results) 0)
      as [Hpos|Hle]; [|done].
    destruct (ensure_is_Some self results cfg Hpos) as [d Hd].
    by rewrite Hcache, Hd.
Qed.

(** X19. Each row the loop of [_log_eval_table] produces is the row
    [_log_eval_sample] makes for the selected sample id in the same
    position, from that sample's predictions and from its cached file name
    joined to the image root; the ids selected from a dictionary of results
    are distinct. *)
Theorem eval_table_rows_of_samples (E : Externals)
  (self : NanoDetWandbLogger.t) (results : dict Z predictions)
  (cfg : NanoDetWandbLogger.config) (rows : list (list cell)) :
  NanoDetWandbLogger.eval_table_rows self results cfg = Ok rows ->
  Forall2 (row_of_sample self results cfg) rows
    (NanoDetWandbLogger.selected self results)
  /\ (NoDup (dict_keys results) ->
      NoDup (NanoDetWandbLogger.selected self results)).
Proof.
  intros Hrows. split.
  - unfold NanoDetWandbLogger.eval_table_rows in Hrows.
    by apply eval_rows_of_samples in Hrows as (new & -> & Hall).
  - intros Hnd. unfold NanoDetWandbLogger.selected, slice_to.
    destruct (0 <=? _);
      (eapply sublist_NoDup; [exact Hnd | apply sublist_take]).
Qed.

Lemma eval_table_rows_of_samples_witness :
  Forall2
    (row_of_sample (H := demo_externals)
       (NanoDetWandbLogger.mk 16 (Some [(1, "a.jpg")]) None [])
       faint_results (demo_cfg [] ["cat"]))
    [[CId 1;
      CImage {| image_path := "val/a.jpg";
                box_data := [];
                class_labels := [(0, "cat")];
                image_classes := [(0, "cat")] |};
      CNum 0]]
    [1].
Proof.
  apply (eval_table_rows_of_samples demo_externals
           (NanoDetWandbLogger.mk 16 (Some [(1, "a.jpg")]) None [])
           faint_results (demo_cfg [] ["cat"])).
  reflexivity.
Defined.

(** X20. Once the cache of file names is set, [_log_eval_table] no longer
    looks at the validation dataset: two configurations with the same image
    root and class names give the same result, whatever their datasets
    hold. *)
Theorem eval_table_ignores_dataset (E : Externals)
  (self : NanoDetWandbLogger.t) (results : dict Z predictions)
  (cfg1 cfg2 : NanoDetWandbLogger.config) :
  is_Some (NanoDetWandbLogger._id_to_name self) ->
  img_path (NanoDetWandbLogger.data_val cfg1)
  = img_path (NanoDetWandbLogger.data_val cfg2) ->
  NanoDetWandbLogger.class_names cfg1 = NanoDetWandbLogger.class_names cfg2 ->
  NanoDetWandbLogger._log_eval_table_body results cfg1 self
  = NanoDetWandbLogger._log_eval_table_body results cfg2 self.
Proof.
  intros Hd Hroot Hnames.
  unfold NanoDetWandbLogger._log_eval_table_body,
    NanoDetWandbLogger.eval_table_rows, NanoDetWandbLogger.eval_row.
  rewrite !ensure_skip by (by right).
  by rewrite Hroot, Hnames.
Qed.

Lemma eval_table_ignores_dataset_witness :
  NanoDetWandbLogger._log_eval_table_body (H := demo_externals) faint_results
    (demo_cfg [{| img_id := 1; file_name := "old.jpg" |}] ["cat"])
    (NanoDetWandbLogger.mk 16 (Some [(1, "a.jpg")]) None [])
  = NanoDetWandbLogger._log_eval_table_body (H := demo_externals)
      faint_results (demo_cfg [] ["cat"])
      (NanoDetWandbLogger.mk 16 (Some [(1, "a.jpg")]) None []).
Proof.
  apply (eval_table_ignores_dataset demo_externals
           (NanoDetWandbLogger.mk 16 (Some [(1, "a.jpg")]) None [])
           faint_results
           (demo_cfg [{| img_id := 1; file_name := "old.jpg" |}] ["cat"])
           (demo_cfg [] ["cat"])).
  - by eexists.
  - reflexivity.
  - reflexivity.
Defined.

(** ** The plain logger *)

Section LoggerFacts.
Import Logger.

Lemma init_returns (tensorboard : bool) (local_rank : Z) (save_dir : string)
  (use_tensorboard : bool) (w w' : list effect) (self : t) :
  init tensorboard local_rank save_dir use_tensorboard w = (w', Returns self) ->
  rank self = local_rank
  /\ log_dir self = path_join save_dir "logs"
  /\ writer self
     = (if use_tensorboard && (local_rank <? 1) then Some [] else None)
  /\ w' = w ++ [Mkdir local_rank save_dir;
                BasicConfig (path_join save_dir "logs.txt");
                AddConsoleHandler]
            ++ (if use_tensorboard && (local_rank <? 1)
                then [LoggingInfo
                        ("Using Tensorboard, logs will be saved in "
                         +:+ path_join save_dir "logs")]
                else []).
Proof.
  unfold init.
  destruct use_tensorboard, tensorboard, (local_rank <? 1); simpl;
    intros [= <- <-]; simpl; by rewrite <- ?app_assoc, ?app_nil_r.
Qed.

Lemma scalar_summaries_writer (ps : list point) :
  forall (self : t) (pts : list point),
    rank self < 1 ->
    writer self = Some pts ->
    scalar_summaries self ps
    = (mk (rank self) (log_dir self) (Some (pts ++ ps)), Returns ()).
Proof.
  induction ps as [|[tg ph v st] ps IH]; intros self pts Hr Hw.
  - simpl. rewrite app_nil_r. destruct self; simpl in *. by subst.
  - simpl. unfold scalar_summary. simpl.
    destruct (Z.ltb_spec (rank self) 1); [|lia]. rewrite Hw.
    rewrite (IH _ (pts ++ [{| tag := tg; phase := ph; value := v;
                              at_step := st |}])); simpl; try done.
    by rewrite <- app_assoc.
Qed.

End LoggerFacts.

(** X21. The plain logger writes exactly on ranks below 1, so on rank 0 and
    on the rank -1 of a run that is not distributed. Constructed on a rank
    of 1 or more it creates no writer and logs nothing, and its [log] and
    [scalar_summary] return having done nothing; on a rank below 1 each
    [log] hands its string to [logging.info]. Construction calls [mkdir] and
    configures [logging] on every rank. *)
Theorem plain_logger_rank_gate (tensorboard use_tensorboard : bool)
  (local_rank : Z) (save_dir : string) (w w' : list Logger.effect)
  (self : Logger.t) :
  Logger.init tensorboard local_rank save_dir use_tensorboard w
  = (w', Logger.Returns self) ->
  (exists tail,
     w' = w ++ [Logger.Mkdir local_rank save_dir;
                Logger.BasicConfig (path_join save_dir "logs.txt");
                Logger.AddConsoleHandler] ++ tail
     /\ (1 <= local_rank -> tail = []))
  /\ (1 <= local_rank ->
      Logger.writer self = None
      /\ (forall (s : string) (w0 : list Logger.effect),
            Logger.log self s w0 = w0)
      /\ (forall (tg ph : string) (v : Q) (st : Z),
            Logger.scalar_summary self tg ph v st
            = (self, Logger.Returns ())))
  /\ (local_rank < 1 ->
      forall (s : string) (w0 : list Logger.effect),
        Logger.log self s w0 = w0 ++ [Logger.LoggingInfo s]).
Proof.
  intros (Hrank & Hdir & Hw & Hw')%init_returns.
  split; [|split].
  - eexists; split; [exact Hw'|]. intros Hr.
    destruct (Z.ltb_spec local_rank 1); [lia|]. by rewrite andb_false_r.
  - intros Hr. unfold Logger.log, Logger.scalar_summary. rewrite Hrank.
    destruct (Z.ltb_spec local_rank 1); [lia|].
    split; [|by split]. by rewrite Hw, andb_false_r.
  - intros Hr s w0. unfold Logger.log. rewrite Hrank.
    by destruct (Z.ltb_spec local_rank 1); [|lia].
Qed.

Lemma plain_logger_rank_gate_witness :
  Logger.log (Logger.mk (-1) "run/logs" (Some [])) "epoch 1" []
  = [Logger.LoggingInfo "epoch 1"]
  /\ Logger.log (Logger.mk 1 "run/logs" None) "epoch 1" [] = [].
Proof.
  split.
  - apply (plain_logger_rank_gate true true (-1) "run" []
             [Logger.Mkdir (-1) "run"; Logger.BasicConfig "run/logs.txt";
              Logger.AddConsoleHandler;
              Logger.LoggingInfo
                "Using Tensorboard, logs will be saved in run/logs"]
             (Logger.mk (-1) "run/logs" (Some [])) eq_refl).
    lia.
  - apply (plain_logger_rank_gate true true 1 "run" []
             [Logger.Mkdir 1 "run"; Logger.BasicConfig "run/logs.txt";
              Logger.AddConsoleHandler]
             (Logger.mk 1 "run/logs" None) eq_refl).
    lia.
Defined.

(** X22. On a rank below 1, a plain logger constructed with
    [use_tensorboard=False] has no writer, and [scalar_summary] raises
    [AttributeError] and leaves the logger as it was; constructed with
    [use_tensorboard=True] it announces the log directory
    [save_dir/logs], holds an empty writer, and after any calls of
    [scalar_summary] the writer holds exactly their points, in order. When
    tensorboard is asked for and cannot be imported, construction raises
    [ImportError]. *)
Theorem plain_logger_scalars (tensorboard use_tensorboard : bool)
  (local_rank : Z) (save_dir : string) (w : list Logger.effect) :
  local_rank < 1 ->
  (use_tensorboard = true -> tensorboard = false ->
   (Logger.init tensorboard local_rank save_dir use_tensorboard w).2
   = Logger.Raises Logger.ImportError)
  /\ (use_tensorboard = false ->
      exists (w' : list Logger.effect) (self : Logger.t),
        Logger.init tensorboard local_rank save_dir use_tensorboard w
        = (w', Logger.Returns self)
        /\ forall (tg ph : string) (v : Q) (st : Z),
             Logger.scalar_summary self tg ph v st
             = (self, Logger.Raises Logger.AttributeError))
  /\ (use_tensorboard = true -> tensorboard = true ->
      exists self : Logger.t,
        Logger.init tensorboard local_rank save_dir use_tensorboard w
        = (w ++ [Logger.Mkdir local_rank save_dir;
                 Logger.BasicConfig (path_join save_dir "logs.txt");
                 Logger.AddConsoleHandler;
                 Logger.LoggingInfo
                   ("Using Tensorboard, logs will be saved in "
                    +:+ path_join save_dir "logs")],
           Logger.Returns self)
        /\ Logger.writer self = Some []
        /\ forall ps : list Logger.point,
             Logger.scalar_summaries self ps
             = (Logger.mk local_rank (path_join save_dir "logs") (Some ps),
                Logger.Returns ())).
Proof.
  intros Hr. unfold Logger.init.
  destruct (Z.ltb_spec local_rank 1); [|lia].
  split; [|split].
  - by intros -> ->.
  - intros ->. eexists _, _. split; [done|]. intros tg ph v st.
    unfold Logger.scalar_summary; simpl.
    by destruct (Z.ltb_spec local_rank 1); [|lia].
  - intros -> ->. eexists. split; [by rewrite <- app_assoc|].
    split; [done|]. intros ps.
    by rewrite (scalar_summaries_writer ps _ []).
Qed.

Lemma plain_logger_scalars_witness :
  exists (w' : list Logger.effect) (self : Logger.t),
    Logger.init true 0 "run" false [] = (w', Logger.Returns self)
    /\ Logger.scalar_summary self "loss" "Train" (1 # 2) 7
       = (self, Logger.Raises Logger.AttributeError).
Proof.
  destruct (plain_logger_scalars true false 0 "run" [])
    as (_ & Hnone & _); [lia|].
  destruct (Hnone eq_refl) as (w' & self & Hinit & Hraise).
  exists w', self. split; [exact Hinit | apply Hraise].
Defined.
